(** * aws_lambda_apigateway: the endpoint provisioner and the session resolver

    A shallow embedding of [core/api_gateway.py] (class
    [APIGatewayLambdaIntegration]) and of [core/profile_manager.py]
    ([ProfileManager.get_session]).

    The Python code is a sequence of calls to boto3 clients, wrapped in
    [try ... except ClientError] blocks that log and re-raise.  It is
    embedded in a monad that threads the state of the outside world,
    emits the events of a run in the order they happen (every logger
    call, every read of the clock, every call of a boto3 operation with
    its keyword arguments and what came back), and ends in a value or in
    a Python exception. *)

From Stdlib Require Import String Ascii List Bool ZArith QArith Lia.
From Stdlib Require Import DecimalString DecimalZ.
Import ListNotations.

Local Close Scope Q_scope.
Local Open Scope list_scope.
Local Open Scope string_scope.

(** ** Python values *)

(** The exceptions that occur.  For a [ClientError] the first field is
    [e.response['Error']['Code']] and the second is [str(e)]; the other
    classes carry [str(e)]. *)
Inductive exn : Type :=
| ClientError (code : string) (text : string)
| ProfileNotFound (text : string)
| ValueError (text : string)
| IndexError (text : string)
| OtherError (cls : string) (text : string).

(** [str(e)], as an f-string renders [{e}]. *)
Definition exn_str (e : exn) : string :=
  match e with
  | ClientError _ text => text
  | ProfileNotFound text => text
  | ValueError text => text
  | IndexError text => text
  | OtherError _ text => text
  end.

Definition is_ClientError (e : exn) : bool :=
  match e with ClientError _ _ => true | _ => false end.

Definition is_ProfileNotFound (e : exn) : bool :=
  match e with ProfileNotFound _ => true | _ => false end.

(** [f'{x}'] for an [Optional[str]]: [None] is rendered as the text None. *)
Definition fstr_opt (x : option string) : string :=
  match x with
  | Some s => s
  | None => "None"
  end.

(** Truth value of an [Optional[str]]: [None] and [''] are falsy. *)
Definition truthy (x : option string) : bool :=
  match x with
  | None => false
  | Some s => negb (String.eqb s "")
  end.

(** [x == s] for an [Optional[str]] [x] and a string [s]. *)
Definition opt_eqb (x : option string) (s : string) : bool :=
  match x with
  | None => false
  | Some s' => String.eqb s' s
  end.

(** [x or d] for an [Optional[str]] [x] and a string [d]. *)
Definition or_else (x : option string) (d : string) : string :=
  match x with
  | None => d
  | Some s => if String.eqb s "" then d else s
  end.

(** [s.split(sep)] for a one-character separator: every occurrence of
    [sep] cuts, so the result has one more field than there are
    separators and is never empty. *)
Fixpoint split (sep : ascii) (s : string) : list string :=
  match s with
  | EmptyString => [EmptyString]
  | String c rest =>
      if Ascii.eqb c sep then EmptyString :: split sep rest
      else match split sep rest with
           | [] => [String c EmptyString]
           | field :: fields => String c field :: fields
           end
  end.

(** [int(x)] for a float [x], read as the rational it denotes: rounds
    towards zero. *)
Definition int_of_float (x : Q) : Z := Z.quot (Qnum x) (Zpos (Qden x)).

(** [str(n)] for an [int]: decimal digits, with a sign when negative. *)
Definition str_int (n : Z) : string := NilEmpty.string_of_int (Z.to_int n).

(** A JSON-like value, for the responses the code hands back untouched. *)
#[local] Unset Elimination Schemes.
Inductive json : Type :=
| JNull
| JBool (b : bool)
| JInt (n : Z)
| JStr (s : string)
| JList (l : list json)
| JDict (d : list (string * json)).
#[local] Set Elimination Schemes.

(** A Python [dict] with string values, in insertion order. *)
Definition dict := list (string * string).

Fixpoint dict_get (d : dict) (k : string) : option string :=
  match d with
  | [] => None
  | (k', v) :: d' => if String.eqb k' k then Some v else dict_get d' k
  end.

(** ** boto3: sessions, operations, responses *)

(** A keyword argument is either left out of the call or passed. *)
Inductive kwarg (A : Type) : Type :=
| Omitted
| Passed (a : A).
Arguments Omitted {A}.
Arguments Passed {A} a.

(** The keyword arguments of [boto3.Session(...)]. *)
Record SessionArgs : Type := {
  kw_profile_name : kwarg (option string);
  kw_region_name : kwarg (option string)
}.

(** boto3 treats [profile_name=None] like a call without [profile_name]:
    the named profile a constructor call asks for, [None] for the ambient
    credential chain. *)
Definition requested_profile (a : SessionArgs) : option string :=
  match kw_profile_name a with
  | Omitted => None
  | Passed p => p
  end.

Definition requested_region (a : SessionArgs) : option string :=
  match kw_region_name a with
  | Omitted => None
  | Passed r => r
  end.

(** A [boto3.Session]: the code reads [session.region_name] only. *)
Record Session : Type := {
  session_profile_name : option string;
  session_region_name : option string
}.

(** One entry of [resources['items']]: [resource['id']], [resource['path']]. *)
Record Resource : Type := {
  resource_id : string;
  resource_path : string
}.

(** The boto3 operations the code calls, with their keyword arguments. *)
Inductive call : Type :=
| get_function (FunctionName : string)
| add_permission (FunctionName StatementId Action Principal SourceArn : string)
| create_rest_api (name description : string) (endpointConfiguration_types : list string)
| get_resources (restApiId : string)
| create_resource (restApiId parentId pathPart : string)
| put_method (restApiId resourceId httpMethod authorizationType : string)
| put_integration (restApiId resourceId httpMethod type_ integrationHttpMethod uri : string)
| put_method_response (restApiId resourceId httpMethod statusCode : string)
    (responseModels : dict)
| put_integration_response (restApiId resourceId httpMethod statusCode : string)
    (responseTemplates : dict)
| create_deployment (restApiId stageName : string)
| delete_rest_api (restApiId : string)
| get_rest_apis
| get_rest_api (restApiId : string)
| test_invoke_method (restApiId resourceId httpMethod body : string).

(** Which client a call goes through. *)
Inductive client : Type := Lambda | ApiGateway.

Definition client_of (c : call) : client :=
  match c with
  | get_function _ | add_permission _ _ _ _ _ => Lambda
  | _ => ApiGateway
  end.

(** The responses, as far as the code looks into them.  boto3 hands back
    dictionaries; the fields are the keys the code reads. *)

(** [response['Configuration']['FunctionArn']] of [get_function]. *)
Record FunctionResponse : Type := {
  Configuration_FunctionArn : string
}.

(** [response['id']] of [create_rest_api], [create_resource] and
    [create_deployment]. *)
Record IdResponse : Type := {
  response_id : string
}.

(** [response['items']] of [get_resources]. *)
Record ResourcesResponse : Type := {
  resources_items : list Resource
}.

(** [response['items']] of [get_rest_apis]. *)
Record RestApisResponse : Type := {
  apis_items : list json
}.

(** A response as a trace records it. *)
Inductive reply : Type :=
| FunctionReply (r : FunctionResponse)
| IdReply (r : IdResponse)
| ResourcesReply (r : ResourcesResponse)
| RestApisReply (r : RestApisResponse)
| RawReply (r : json).

Inductive level : Type := INFO | WARNING | ERROR.

(** The events of a run. *)
Inductive event : Type :=
| Log (lvl : level) (message : string)
| Clock (now : Q)
| NewSession (args : SessionArgs) (result : exn + Session)
| NewClient (service : string) (result : exn + unit)
| Call (c : call) (result : exn + reply).

Definition trace := list event.

(** The boto3 calls of a trace, in order. *)
Fixpoint calls (t : trace) : list (call * (exn + reply)) :=
  match t with
  | [] => []
  | Call c r :: t' => (c, r) :: calls t'
  | _ :: t' => calls t'
  end.

Definition on_client (k : client) (cr : call * (exn + reply)) : bool :=
  match client_of (fst cr), k with
  | Lambda, Lambda => true
  | ApiGateway, ApiGateway => true
  | _, _ => false
  end.

(** The calls of a trace that went to the gateway control plane. *)
Definition gateway_calls (t : trace) : list (call * (exn + reply)) :=
  filter (on_client ApiGateway) (calls t).

Definition map_result {A B : Type} (f : A -> B) (r : exn + A) : exn + B :=
  match r with
  | inl e => inl e
  | inr a => inr (f a)
  end.

(** ** The outside world

    [W] is the state of everything outside the process: the AWS account,
    the credential files, the clock.  Every operation may change it and
    either hands back a response or raises. *)
Record services (W : Type) : Type := {
  time_time : W -> W * Q;
  boto3_Session : SessionArgs -> W -> W * (exn + Session);
  session_client : Session -> string -> W -> W * (exn + unit);
  aws_get_function : string -> W -> W * (exn + FunctionResponse);
  aws_add_permission :
    string -> string -> string -> string -> string -> W -> W * (exn + json);
  aws_create_rest_api :
    string -> string -> list string -> W -> W * (exn + IdResponse);
  aws_get_resources : string -> W -> W * (exn + ResourcesResponse);
  aws_create_resource :
    string -> string -> string -> W -> W * (exn + IdResponse);
  aws_put_method :
    string -> string -> string -> string -> W -> W * (exn + json);
  aws_put_integration :
    string -> string -> string -> string -> string -> string ->
    W -> W * (exn + json);
  aws_put_method_response :
    string -> string -> string -> string -> dict -> W -> W * (exn + json);
  aws_put_integration_response :
    string -> string -> string -> string -> dict -> W -> W * (exn + json);
  aws_create_deployment : string -> string -> W -> W * (exn + IdResponse);
  aws_delete_rest_api : string -> W -> W * (exn + json);
  aws_get_rest_apis : W -> W * (exn + RestApisResponse);
  aws_get_rest_api : string -> W -> W * (exn + json);
  aws_test_invoke_method :
    string -> string -> string -> string -> W -> W * (exn + json)
}.
Arguments time_time {W} _ _.
Arguments boto3_Session {W} _ _ _.
Arguments session_client {W} _ _ _ _.
Arguments aws_get_function {W} _ _ _.
Arguments aws_add_permission {W} _ _ _ _ _ _ _.
Arguments aws_create_rest_api {W} _ _ _ _ _.
Arguments aws_get_resources {W} _ _ _.
Arguments aws_create_resource {W} _ _ _ _ _.
Arguments aws_put_method {W} _ _ _ _ _ _.
Arguments aws_put_integration {W} _ _ _ _ _ _ _ _.
Arguments aws_put_method_response {W} _ _ _ _ _ _ _.
Arguments aws_put_integration_response {W} _ _ _ _ _ _ _.
Arguments aws_create_deployment {W} _ _ _ _.
Arguments aws_delete_rest_api {W} _ _ _.
Arguments aws_get_rest_apis {W} _ _.
Arguments aws_get_rest_api {W} _ _ _.
Arguments aws_test_invoke_method {W} _ _ _ _ _ _.

(** ** The monad of the embedding *)

(** How a run ends: the world it leaves, the events it emitted, and the
    value it returned or the exception it raised. *)
Record outcome (W A : Type) : Type := Outcome {
  final : W;
  emitted : trace;
  result : exn + A
}.
Arguments Outcome {W A} _ _ _.
Arguments final {W A} _.
Arguments emitted {W A} _.
Arguments result {W A} _.

Definition M (W A : Type) : Type := W -> outcome W A.

Definition ret {W A : Type} (a : A) : M W A :=
  fun w => Outcome w [] (inr a).

Definition raise {W A : Type} (e : exn) : M W A :=
  fun w => Outcome w [] (inl e).

Definition bind {W A B : Type} (m : M W A) (k : A -> M W B) : M W B :=
  fun w =>
    match m w with
    | Outcome w1 t1 (inl e) => Outcome w1 t1 (inl e)
    | Outcome w1 t1 (inr a) =>
        match k a w1 with
        | Outcome w2 t2 r => Outcome w2 (t1 ++ t2)%list r
        end
    end.

Notation "x <- m ;; k" := (bind m (fun x => k))
  (at level 61, m at next level, right associativity).
Notation "m ;; k" := (bind m (fun _ => k))
  (at level 61, right associativity).

(** [try: body except <class> as e: handler e], for the exceptions [sel]
    selects; any other exception passes through. *)
Definition try_except {W A : Type} (body : M W A) (sel : exn -> bool)
    (handler : exn -> M W A) : M W A :=
  fun w =>
    match body w with
    | Outcome w1 t1 (inl e) =>
        if sel e then
          match handler e w1 with
          | Outcome w2 t2 r => Outcome w2 (t1 ++ t2)%list r
          end
        else Outcome w1 t1 (inl e)
    | Outcome w1 t1 (inr a) => Outcome w1 t1 (inr a)
    end.

(** [l[i]] on a list. *)
Definition getitem {W A : Type} (l : list A) (i : nat) : M W A :=
  match nth_error l i with
  | Some a => ret a
  | None => raise (IndexError "list index out of range")
  end.

Definition logger_info {W : Type} (message : string) : M W unit :=
  fun w => Outcome w [Log INFO message] (inr tt).

Definition logger_warning {W : Type} (message : string) : M W unit :=
  fun w => Outcome w [Log WARNING message] (inr tt).

Definition logger_error {W : Type} (message : string) : M W unit :=
  fun w => Outcome w [Log ERROR message] (inr tt).

(** A boto3 operation: ask the world, record the call and what came back. *)
Definition invoke {W A : Type} (op : W -> W * (exn + A)) (c : call)
    (as_reply : A -> reply) : M W A :=
  fun w =>
    let (w', r) := op w in
    Outcome w' [Call c (map_result as_reply r)] r.

(** ** The program *)

(** [self] of [APIGatewayLambdaIntegration]; the two clients are the
    operations of the world. *)
Record APIGatewayLambdaIntegration : Type := {
  profile_name : option string;
  region_name : option string;
  session : Session
}.

Section Program.

Context {W : Type} (aws : services W).

(** *** The boto3 entry points *)

Definition time_time_ : M W Q :=
  fun w => let (w', now) := time_time aws w in Outcome w' [Clock now] (inr now).

Definition Session_ (args : SessionArgs) : M W Session :=
  fun w =>
    let (w', r) := boto3_Session aws args w in
    Outcome w' [NewSession args r] r.

Definition client_ (s : Session) (service : string) : M W unit :=
  fun w =>
    let (w', r) := session_client aws s service w in
    Outcome w' [NewClient service r] r.

Definition lambda_client_get_function (FunctionName : string) :=
  invoke (aws_get_function aws FunctionName)
    (get_function FunctionName) FunctionReply.

Definition lambda_client_add_permission
    (FunctionName StatementId Action Principal SourceArn : string) :=
  invoke (aws_add_permission aws FunctionName StatementId Action Principal SourceArn)
    (add_permission FunctionName StatementId Action Principal SourceArn) RawReply.

Definition apigateway_client_create_rest_api (name description : string)
    (endpointConfiguration_types : list string) :=
  invoke (aws_create_rest_api aws name description endpointConfiguration_types)
    (create_rest_api name description endpointConfiguration_types) IdReply.

Definition apigateway_client_get_resources (restApiId : string) :=
  invoke (aws_get_resources aws restApiId) (get_resources restApiId) ResourcesReply.

Definition apigateway_client_create_resource (restApiId parentId pathPart : string) :=
  invoke (aws_create_resource aws restApiId parentId pathPart)
    (create_resource restApiId parentId pathPart) IdReply.

Definition apigateway_client_put_method
    (restApiId resourceId httpMethod authorizationType : string) :=
  invoke (aws_put_method aws restApiId resourceId httpMethod authorizationType)
    (put_method restApiId resourceId httpMethod authorizationType) RawReply.

Definition apigateway_client_put_integration
    (restApiId resourceId httpMethod type_ integrationHttpMethod uri : string) :=
  invoke
    (aws_put_integration aws restApiId resourceId httpMethod type_
       integrationHttpMethod uri)
    (put_integration restApiId resourceId httpMethod type_
       integrationHttpMethod uri) RawReply.

Definition apigateway_client_put_method_response
    (restApiId resourceId httpMethod statusCode : string) (responseModels : dict) :=
  invoke
    (aws_put_method_response aws restApiId resourceId httpMethod statusCode
       responseModels)
    (put_method_response restApiId resourceId httpMethod statusCode
       responseModels) RawReply.

Definition apigateway_client_put_integration_response
    (restApiId resourceId httpMethod statusCode : string)
    (responseTemplates : dict) :=
  invoke
    (aws_put_integration_response aws restApiId resourceId httpMethod statusCode
       responseTemplates)
    (put_integration_response restApiId resourceId httpMethod statusCode
       responseTemplates) RawReply.

Definition apigateway_client_create_deployment (restApiId stageName : string) :=
  invoke (aws_create_deployment aws restApiId stageName)
    (create_deployment restApiId stageName) IdReply.

Definition apigateway_client_delete_rest_api (restApiId : string) :=
  invoke (aws_delete_rest_api aws restApiId) (delete_rest_api restApiId) RawReply.

Definition apigateway_client_get_rest_apis :=
  invoke (aws_get_rest_apis aws) get_rest_apis RestApisReply.

Definition apigateway_client_get_rest_api (restApiId : string) :=
  invoke (aws_get_rest_api aws restApiId) (get_rest_api restApiId) RawReply.

Definition apigateway_client_test_invoke_method
    (restApiId resourceId httpMethod body : string) :=
  invoke (aws_test_invoke_method aws restApiId resourceId httpMethod body)
    (test_invoke_method restApiId resourceId httpMethod body) RawReply.

(** *** core/api_gateway.py *)

(** [APIGatewayLambdaIntegration._create_session]; it reads
    [self.profile_name] and [self.region_name], the two attributes
    [__init__] has set when it calls it. *)
Definition _create_session (profile_name region_name : option string)
    : M W Session :=
  if opt_eqb profile_name "latest" then
    logger_info "Using latest AWS credentials" ;;
    Session_ {| kw_profile_name := Omitted;
                kw_region_name := Passed region_name |}
  else
    logger_info ("Using AWS profile: " ++ fstr_opt profile_name) ;;
    Session_ {| kw_profile_name := Passed profile_name;
                kw_region_name := Passed region_name |}.

(** [APIGatewayLambdaIntegration.__init__]. *)
Definition __init__ (profile_name region_name : option string)
    : M W APIGatewayLambdaIntegration :=
  session <- _create_session profile_name region_name ;;
  client_ session "apigateway" ;;
  client_ session "lambda" ;;
  ret {| profile_name := profile_name;
         region_name := region_name;
         session := session |}.

(** [_get_lambda_function]: [None] when the registry answers with the
    error code ResourceNotFoundException. *)
Definition _get_lambda_function (self : APIGatewayLambdaIntegration)
    (lambda_name : string) : M W (option FunctionResponse) :=
  try_except
    (logger_info ("Getting Lambda function: " ++ lambda_name) ;;
     response <- lambda_client_get_function lambda_name ;;
     ret (Some response))
    is_ClientError
    (fun e =>
       match e with
       | ClientError code _ =>
           if String.eqb code "ResourceNotFoundException" then
             logger_warning ("Lambda function not found: " ++ lambda_name) ;;
             ret None
           else
             logger_error ("Error getting Lambda function: " ++ exn_str e) ;;
             raise e
       | _ => raise e
       end).

(** [_add_lambda_permission]. *)
Definition _add_lambda_permission (self : APIGatewayLambdaIntegration)
    (lambda_name source_arn : string) : M W json :=
  try_except
    (logger_info ("Adding Lambda permission for: " ++ lambda_name) ;;
     now <- time_time_ ;;
     let statement_id := "apigateway-" ++ str_int (int_of_float now) in
     response <- lambda_client_add_permission lambda_name statement_id
                   "lambda:InvokeFunction" "apigateway.amazonaws.com"
                   source_arn ;;
     ret response)
    is_ClientError
    (fun e =>
       logger_error ("Error adding Lambda permission: " ++ exn_str e) ;;
       raise e).

(** [create_api]; the dictionary it returns is built in the order of the
    source. *)
Definition create_api (self : APIGatewayLambdaIntegration)
    (api_name lambda_name description : string) : M W dict :=
  try_except
    (lambda_function <- _get_lambda_function self lambda_name ;;
     match lambda_function with
     | None =>
         raise (ValueError ("Lambda function '" ++ lambda_name ++ "' not found"))
     | Some lambda_function =>
         logger_info ("Creating API Gateway: " ++ api_name) ;;
         api <- apigateway_client_create_rest_api api_name description
                  ["REGIONAL"] ;;
         let api_id := response_id api in
         resources <- apigateway_client_get_resources api_id ;;
         root_id <- getitem
                      (map resource_id
                         (filter (fun resource => String.eqb (resource_path resource) "/")
                            (resources_items resources)))
                      0 ;;
         resource <- apigateway_client_create_resource api_id root_id
                       lambda_name ;;
         let resource_id := response_id resource in
         apigateway_client_put_method api_id resource_id "POST" "NONE" ;;
         let lambda_arn := Configuration_FunctionArn lambda_function in
         let region := fstr_opt (session_region_name (session self)) in
         account_id <- getitem (split ":" lambda_arn) 4 ;;
         apigateway_client_put_integration api_id resource_id "POST" "AWS" "POST"
           ("arn:aws:apigateway:" ++ region
              ++ ":lambda:path/2015-03-31/functions/" ++ lambda_arn
              ++ "/invocations") ;;
         apigateway_client_put_method_response api_id resource_id "POST" "200"
           [("application/json", "Empty")] ;;
         apigateway_client_put_integration_response api_id resource_id "POST"
           "200" [("application/json", "")] ;;
         let source_arn :=
           "arn:aws:execute-api:" ++ region ++ ":" ++ account_id ++ ":"
             ++ api_id ++ "/*/*/" ++ lambda_name in
         _add_lambda_permission self lambda_name source_arn ;;
         deployment <- apigateway_client_create_deployment api_id "prod" ;;
         let invoke_url :=
           "https://" ++ api_id ++ ".execute-api." ++ region
             ++ ".amazonaws.com/prod/" ++ lambda_name in
         ret [("api_id", api_id);
              ("api_name", api_name);
              ("lambda_name", lambda_name);
              ("lambda_arn", lambda_arn);
              ("invoke_url", invoke_url);
              ("deployment_id", response_id deployment);
              ("stage", "prod")]
     end)
    is_ClientError
    (fun e =>
       logger_error ("Error creating API Gateway: " ++ exn_str e) ;;
       raise e).

(** [delete_api]. *)
Definition delete_api (self : APIGatewayLambdaIntegration) (api_id : string)
    : M W dict :=
  try_except
    (logger_info ("Deleting API Gateway: " ++ api_id) ;;
     response <- apigateway_client_delete_rest_api api_id ;;
     ret [("status", "deleted"); ("api_id", api_id)])
    is_ClientError
    (fun e =>
       logger_error ("Error deleting API Gateway: " ++ exn_str e) ;;
       raise e).

(** [list_apis]. *)
Definition list_apis (self : APIGatewayLambdaIntegration) : M W (list json) :=
  try_except
    (logger_info "Listing API Gateways" ;;
     response <- apigateway_client_get_rest_apis ;;
     ret (apis_items response))
    is_ClientError
    (fun e =>
       logger_error ("Error listing API Gateways: " ++ exn_str e) ;;
       raise e).

(** [get_api]. *)
Definition get_api (self : APIGatewayLambdaIntegration) (api_id : string)
    : M W json :=
  try_except
    (logger_info ("Getting API Gateway: " ++ api_id) ;;
     response <- apigateway_client_get_rest_api api_id ;;
     ret response)
    is_ClientError
    (fun e =>
       logger_error ("Error getting API Gateway: " ++ exn_str e) ;;
       raise e).

(** The [for] loop of [_get_resource_id]: the id of the first resource
    whose path is [resource_path]. *)
Fixpoint first_with_path (items : list Resource) (resource_path_ : string)
    : option string :=
  match items with
  | [] => None
  | resource :: items' =>
      if String.eqb (resource_path resource) resource_path_
      then Some (resource_id resource)
      else first_with_path items' resource_path_
  end.

(** [_get_resource_id]. *)
Definition _get_resource_id (self : APIGatewayLambdaIntegration)
    (api_id resource_path_ : string) : M W string :=
  try_except
    (resources <- apigateway_client_get_resources api_id ;;
     match first_with_path (resources_items resources) resource_path_ with
     | Some id => ret id
     | None => raise (ValueError ("Resource not found: " ++ resource_path_))
     end)
    is_ClientError
    (fun e =>
       logger_error ("Error getting resource ID: " ++ exn_str e) ;;
       raise e).

(** [test_invoke_api]; the keyword arguments of [test_invoke_method] are
    evaluated before the call, so the resource id is looked up first. *)
Definition test_invoke_api (self : APIGatewayLambdaIntegration)
    (api_id resource_path_ http_method : string) (body : option string)
    : M W json :=
  try_except
    (logger_info ("Test invoking API Gateway: " ++ api_id ++ ", path: "
                    ++ resource_path_) ;;
     resource_id <- _get_resource_id self api_id resource_path_ ;;
     response <- apigateway_client_test_invoke_method api_id resource_id
                   http_method (or_else body "{}") ;;
     ret response)
    is_ClientError
    (fun e =>
       logger_error ("Error test invoking API Gateway: " ++ exn_str e) ;;
       raise e).

(** *** core/profile_manager.py *)

(** [ProfileManager.get_session].  The first [except] clause takes a
    [ProfileNotFound], the second every other exception. *)
Definition get_session (profile_name region_name : option string)
    : M W Session :=
  try_except
    (if opt_eqb profile_name "latest" then
       logger_info "Using latest AWS credentials" ;;
       Session_ {| kw_profile_name := Omitted;
                   kw_region_name := Passed region_name |}
     else if truthy profile_name then
       logger_info ("Using AWS profile: " ++ fstr_opt profile_name) ;;
       Session_ {| kw_profile_name := Passed profile_name;
                   kw_region_name := Passed region_name |}
     else
       logger_info "Using default AWS profile" ;;
       Session_ {| kw_profile_name := Omitted;
                   kw_region_name := Passed region_name |})
    (fun _ => true)
    (fun e =>
       if is_ProfileNotFound e then
         logger_error ("AWS profile not found: " ++ fstr_opt profile_name) ;;
         raise e
       else
         logger_error ("Error creating AWS session: " ++ exn_str e) ;;
         raise e).

End Program.

(** ** Stub worlds

    The stubs of [tests/test_api_gateway.py]: every operation answers
    with a canned response whatever its arguments, and the world has no
    state of its own. *)
Record canned : Type := {
  canned_now : Q;
  canned_session : SessionArgs -> exn + Session;
  canned_function : exn + FunctionResponse;
  canned_permission : exn + json;
  canned_rest_api : exn + IdResponse;
  canned_resources : exn + ResourcesResponse;
  canned_resource : exn + IdResponse;
  canned_method : exn + json;
  canned_integration : exn + json;
  canned_method_response : exn + json;
  canned_integration_response : exn + json;
  canned_deployment : exn + IdResponse;
  canned_delete : exn + json;
  canned_test_invoke : exn + json
}.

Definition stub (c : canned) : services unit := {|
  time_time := fun w => (w, canned_now c);
  boto3_Session := fun args w => (w, canned_session c args);
  session_client := fun _ _ w => (w, inr tt);
  aws_get_function := fun _ w => (w, canned_function c);
  aws_add_permission := fun _ _ _ _ _ w => (w, canned_permission c);
  aws_create_rest_api := fun _ _ _ w => (w, canned_rest_api c);
  aws_get_resources := fun _ w => (w, canned_resources c);
  aws_create_resource := fun _ _ _ w => (w, canned_resource c);
  aws_put_method := fun _ _ _ _ w => (w, canned_method c);
  aws_put_integration := fun _ _ _ _ _ _ w => (w, canned_integration c);
  aws_put_method_response := fun _ _ _ _ _ w => (w, canned_method_response c);
  aws_put_integration_response :=
    fun _ _ _ _ _ w => (w, canned_integration_response c);
  aws_create_deployment := fun _ _ w => (w, canned_deployment c);
  aws_delete_rest_api := fun _ w => (w, canned_delete c);
  aws_get_rest_apis := fun w => (w, inr {| apis_items := [] |});
  aws_get_rest_api := fun _ w => (w, inr (JDict []));
  aws_test_invoke_method := fun _ _ _ _ w => (w, canned_test_invoke c)
|}.

(** A session as boto3 builds it from its arguments when every profile
    asked for exists. *)
Definition session_of (args : SessionArgs) : Session :=
  {| session_profile_name := requested_profile args;
     session_region_name := requested_region args |}.

(** The example of the specification: function [demo-fn] in account
    123456789012, gateway ids [api123], [root123], [node123].  The clock
    and the answers of [get_function], [get_resources] and
    [create_resource] are left open, so that the runs that go wrong can be
    written down as well. *)
Definition scenario (now : Q) (function : exn + FunctionResponse)
    (resources : exn + ResourcesResponse) (resource : exn + IdResponse)
    : canned := {|
  canned_now := now;
  canned_session := fun args => inr (session_of args);
  canned_function := function;
  canned_permission := inr (JDict [("Statement", JStr "{}")]);
  canned_rest_api := inr {| response_id := "api123" |};
  canned_resources := resources;
  canned_resource := resource;
  canned_method := inr (JDict []);
  canned_integration := inr (JDict []);
  canned_method_response := inr (JDict []);
  canned_integration_response := inr (JDict []);
  canned_deployment := inr {| response_id := "deployment123" |};
  canned_delete := inr (JDict []);
  canned_test_invoke :=
    inr (JDict [("status", JInt 200); ("body", JStr "{}")])
|}.

Definition demo_function : FunctionResponse :=
  {| Configuration_FunctionArn :=
       "arn:aws:lambda:us-east-1:123456789012:function:demo-fn" |}.

Definition demo_resources : ResourcesResponse :=
  {| resources_items :=
       [ {| resource_id := "root123"; resource_path := "/" |};
         {| resource_id := "node123"; resource_path := "/demo-fn" |} ] |}.

Definition demo (now : Q) : canned :=
  scenario now (inr demo_function) (inr demo_resources)
    (inr {| response_id := "node123" |}).

Definition demo_self : APIGatewayLambdaIntegration := {|
  profile_name := Some "test-profile";
  region_name := Some "us-east-1";
  session := {| session_profile_name := Some "test-profile";
                session_region_name := Some "us-east-1" |}
|}.


(** * Properties *)

#[local] Arguments String.append : simpl never.
#[local] Arguments nth_error : simpl never.

(** The permission grants among the calls of a trace. *)
Definition is_add_permission (cr : call * (exn + reply)) : bool :=
  match fst cr with
  | add_permission _ _ _ _ _ => true
  | _ => false
  end.

Definition permission_grants (t : trace) : list (call * (exn + reply)) :=
  filter is_add_permission (calls t).

(** The step of the procedure of [create_api], numbered as the
    specification numbers it, that a call belongs to; the operations
    outside the procedure have none. *)
Definition step (c : call) : option nat :=
  match c with
  | get_function _ => Some 1
  | create_rest_api _ _ _ => Some 2
  | get_resources _ => Some 3
  | create_resource _ _ _ => Some 4
  | put_method _ _ _ _ => Some 5
  | put_integration _ _ _ _ _ _ => Some 6
  | put_method_response _ _ _ _ _ => Some 7
  | put_integration_response _ _ _ _ _ => Some 7
  | add_permission _ _ _ _ _ => Some 8
  | create_deployment _ _ => Some 9
  | delete_rest_api _ | get_rest_apis | get_rest_api _
  | test_invoke_method _ _ _ _ => None
  end.

(** The calls of a list that raised, and the calls made after the first
    of them. *)
Fixpoint failures (l : list (call * (exn + reply))) : list (call * exn) :=
  match l with
  | [] => []
  | (c, inl e) :: l' => (c, e) :: failures l'
  | (_, inr _) :: l' => failures l'
  end.

Fixpoint after_first_failure (l : list (call * (exn + reply)))
    : list (call * (exn + reply)) :=
  match l with
  | [] => []
  | (_, inl _) :: l' => l'
  | (_, inr _) :: l' => after_first_failure l'
  end.

(** The two errors the code classifies itself; both are [ValueError]s,
    told apart by their text. *)
Definition FunctionNotFound (lambda_name : string) : exn :=
  ValueError ("Lambda function '" ++ lambda_name ++ "' not found").

Definition ResourceNotFound (resource_path_ : string) : exn :=
  ValueError ("Resource not found: " ++ resource_path_).

(** Unfolding the program down to the operations of the world. *)
Ltac unfold_program :=
  unfold create_api, delete_api, test_invoke_api, _get_resource_id,
    _get_lambda_function, _add_lambda_permission, get_session,
    _create_session, FunctionNotFound, ResourceNotFound;
  unfold lambda_client_get_function, lambda_client_add_permission,
    apigateway_client_create_rest_api, apigateway_client_get_resources,
    apigateway_client_create_resource, apigateway_client_put_method,
    apigateway_client_put_integration, apigateway_client_put_method_response,
    apigateway_client_put_integration_response,
    apigateway_client_create_deployment, apigateway_client_delete_rest_api,
    apigateway_client_test_invoke_method, time_time_, Session_, invoke;
  unfold try_except, bind, getitem, ret, raise, logger_info, logger_warning,
    logger_error.

(** One step of a run: case analysis on what the next operation of the
    world answers, or on the next list lookup. *)
Ltac step_run :=
  match goal with
  | |- context [let (_, _) := time_time ?a ?w in _] =>
      let now := fresh "now" in
      let E := fresh "E" in
      destruct (time_time a w) as [? now] eqn:E; simpl
  | |- context [let (_, _) := ?op in _] =>
      let e := fresh "e" in
      let E := fresh "E" in
      destruct op as [? [e | ?]] eqn:E; [destruct e |]; simpl
  | |- context [if String.eqb ?a ?b then _ else _] =>
      destruct (String.eqb_spec a b); simpl
  | |- context [nth_error ?l ?i] =>
      let E := fresh "E" in
      destruct (nth_error l i) eqn:E; simpl
  end.

(** When nothing follows the first failure of a list of calls, a failed
    call of the list is its last element and its only failure. *)
Lemma failure_is_last :
  forall (l pre post : list (call * (exn + reply))) (c : call) (e : exn),
    l = (pre ++ (c, inl e) :: post)%list ->
    after_first_failure l = [] ->
    post = [] /\ failures l = [(c, e)].
Proof.
  intros l pre; revert l.
  induction pre as [| [c' [e' | a']] pre IH]; intros l post c e -> H; simpl in *.
  - subst post. split; reflexivity.
  - destruct pre; discriminate.
  - apply (IH _ post c e eq_refl H).
Qed.

(** Membership in an explicit list of calls, one element at a time. *)
Ltac each_call H :=
  simpl in H;
  repeat (destruct H as [H | H]; [injection H as <- <- |]);
  try contradiction.

Ltac no_such_call H :=
  simpl in H;
  repeat (destruct H as [H | H]; [discriminate H |]);
  contradiction.

Section Create.

Context {W : Type} (aws : services W) (self : APIGatewayLambdaIntegration).

(** C1.  When the registry answers [get_function] with the error code
    ResourceNotFoundException, [create_api] raises the ValueError the
    specification calls FunctionNotFound; [get_function] is the only call
    it makes, so nothing is asked of the gateway and no endpoint
    container is created. *)
Theorem create_api_function_not_found :
  forall (api_name lambda_name description : string) (w w' : W) (text : string),
    aws_get_function aws lambda_name w
      = (w', inl (ClientError "ResourceNotFoundException" text)) ->
    let o := create_api aws self api_name lambda_name description w in
    result o = inl (FunctionNotFound lambda_name)
    /\ calls (emitted o)
       = [(get_function lambda_name,
           inl (ClientError "ResourceNotFoundException" text))]
    /\ gateway_calls (emitted o) = [].
Proof.
  intros api_name lambda_name description w w' text H.
  unfold_program. rewrite H. simpl.
  repeat split.
Qed.

(** A run of [create_api] that returns went through the whole procedure:
    every operation answered, the root resource and the account id were
    found, and the events and the result are these. *)
Lemma create_api_success :
  forall (api_name lambda_name description : string) (w : W) (d : dict),
    result (create_api aws self api_name lambda_name description w) = inr d ->
    exists (fn : FunctionResponse) (api : IdResponse)
           (resources : ResourcesResponse) (root_id : string)
           (resource : IdResponse) (account_id : string) (now : Q)
           (deployment : IdResponse) (r5 r6 r7a r7b r8 : json),
      let lambda_arn := Configuration_FunctionArn fn in
      let region := fstr_opt (session_region_name (session self)) in
      let api_id := response_id api in
      let node_id := response_id resource in
      nth_error
        (map resource_id
           (filter (fun resource => String.eqb (resource_path resource) "/")
              (resources_items resources))) 0 = Some root_id
      /\ nth_error (split ":" lambda_arn) 4 = Some account_id
      /\ emitted (create_api aws self api_name lambda_name description w)
         = [ Log INFO ("Getting Lambda function: " ++ lambda_name);
             Call (get_function lambda_name) (inr (FunctionReply fn));
             Log INFO ("Creating API Gateway: " ++ api_name);
             Call (create_rest_api api_name description ["REGIONAL"])
               (inr (IdReply api));
             Call (get_resources api_id) (inr (ResourcesReply resources));
             Call (create_resource api_id root_id lambda_name)
               (inr (IdReply resource));
             Call (put_method api_id node_id "POST" "NONE")
               (inr (RawReply r5));
             Call (put_integration api_id node_id "POST" "AWS" "POST"
                     ("arn:aws:apigateway:" ++ region
                        ++ ":lambda:path/2015-03-31/functions/" ++ lambda_arn
                        ++ "/invocations"))
               (inr (RawReply r6));
             Call (put_method_response api_id node_id "POST" "200"
                     [("application/json", "Empty")])
               (inr (RawReply r7a));
             Call (put_integration_response api_id node_id "POST" "200"
                     [("application/json", "")])
               (inr (RawReply r7b));
             Log INFO ("Adding Lambda permission for: " ++ lambda_name);
             Clock now;
             Call (add_permission lambda_name
                     ("apigateway-" ++ str_int (int_of_float now))
                     "lambda:InvokeFunction" "apigateway.amazonaws.com"
                     ("arn:aws:execute-api:" ++ region ++ ":" ++ account_id
                        ++ ":" ++ api_id ++ "/*/*/" ++ lambda_name))
               (inr (RawReply r8));
             Call (create_deployment api_id "prod") (inr (IdReply deployment)) ]
      /\ d = [ ("api_id", api_id);
               ("api_name", api_name);
               ("lambda_name", lambda_name);
               ("lambda_arn", lambda_arn);
               ("invoke_url",
                "https://" ++ api_id ++ ".execute-api." ++ region
                  ++ ".amazonaws.com/prod/" ++ lambda_name);
               ("deployment_id", response_id deployment);
               ("stage", "prod") ].
Proof.
  intros api_name lambda_name description w d.
  unfold_program.
  repeat (step_run; try (intros; discriminate)).
  intros H. injection H as <-.
  do 13 eexists. cbv zeta.
  repeat split; eassumption.
Qed.

(** C2.  When [create_api] returns, the [invoke_url] of the dictionary it
    returns is https://<id>.execute-api.<region>.amazonaws.com/prod/<function
    name>, where <id> is the id the gateway answered [create_rest_api]
    with (also the [api_id] of the dictionary) and <region> is
    [session.region_name] as the f-string renders it; the [stage] is
    prod. *)
Theorem create_api_invoke_url :
  forall (api_name lambda_name description : string) (w : W) (d : dict),
    result (create_api aws self api_name lambda_name description w) = inr d ->
    exists api : IdResponse,
      In (create_rest_api api_name description ["REGIONAL"], inr (IdReply api))
         (calls (emitted (create_api aws self api_name lambda_name
                            description w)))
      /\ dict_get d "api_id" = Some (response_id api)
      /\ dict_get d "invoke_url"
         = Some ("https://" ++ response_id api ++ ".execute-api."
                   ++ fstr_opt (session_region_name (session self))
                   ++ ".amazonaws.com/prod/" ++ lambda_name)
      /\ dict_get d "stage" = Some "prod".
Proof.
  intros api_name lambda_name description w d H.
  destruct (create_api_success _ _ _ _ _ H)
    as (fn & api & resources & root_id & resource & account_id & now
        & deployment & r5 & r6 & r7a & r7b & r8 & _ & _ & Ht & ->).
  exists api. rewrite Ht. simpl.
  repeat split. right. left. reflexivity.
Qed.

(** C3.  When [create_api] returns, it has issued exactly one permission
    grant, for the function, the action lambda:InvokeFunction and the
    principal apigateway.amazonaws.com, with the source ARN
    arn:aws:execute-api:<region>:<account>:<id>/*/*/<function name>:
    <account> is the fifth colon-separated field of the FunctionArn the
    registry answered [get_function] with, <id> the id the gateway
    answered [create_rest_api] with, and the invoke URL is built from the
    same <id> and <region>. *)
Theorem create_api_permission_grant :
  forall (api_name lambda_name description : string) (w : W) (d : dict),
    result (create_api aws self api_name lambda_name description w) = inr d ->
    exists (fn : FunctionResponse) (api : IdResponse)
           (account_id statement_id : string) (answer : json),
      let t := emitted (create_api aws self api_name lambda_name
                          description w) in
      let region := fstr_opt (session_region_name (session self)) in
      In (get_function lambda_name, inr (FunctionReply fn)) (calls t)
      /\ In (create_rest_api api_name description ["REGIONAL"],
             inr (IdReply api)) (calls t)
      /\ nth_error (split ":" (Configuration_FunctionArn fn)) 4
         = Some account_id
      /\ permission_grants t
         = [(add_permission lambda_name statement_id "lambda:InvokeFunction"
               "apigateway.amazonaws.com"
               ("arn:aws:execute-api:" ++ region ++ ":" ++ account_id ++ ":"
                  ++ response_id api ++ "/*/*/" ++ lambda_name),
             inr (RawReply answer))]
      /\ dict_get d "invoke_url"
         = Some ("https://" ++ response_id api ++ ".execute-api." ++ region
                   ++ ".amazonaws.com/prod/" ++ lambda_name).
Proof.
  intros api_name lambda_name description w d H.
  destruct (create_api_success _ _ _ _ _ H)
    as (fn & api & resources & root_id & resource & account_id & now
        & deployment & r5 & r6 & r7a & r7b & r8 & _ & Hacc & Ht & ->).
  exists fn, api, account_id. do 2 eexists.
  cbv zeta. rewrite Ht. simpl.
  split; [left; reflexivity |].
  split; [right; left; reflexivity |].
  split; [exact Hacc |].
  split; reflexivity.
Qed.

(** C4.  When a call of steps 2 to 9 of [create_api] raises, [create_api]
    raises that very exception, the failed call is the last call of the
    run, every call of the run belongs to a step of the procedure no
    later than the failed one, and so no call deletes or revokes what the
    earlier steps created. *)
Theorem create_api_failure_propagates :
  forall (api_name lambda_name description : string) (w : W)
         (pre post : list (call * (exn + reply))) (c : call) (e : exn) (k : nat),
    calls (emitted (create_api aws self api_name lambda_name description w))
      = (pre ++ (c, inl e) :: post)%list ->
    step c = Some k ->
    2 <= k <= 9 ->
    result (create_api aws self api_name lambda_name description w) = inl e
    /\ post = []
    /\ (forall c' r',
          In (c', r')
             (calls (emitted (create_api aws self api_name lambda_name
                                description w))) ->
          exists j, step c' = Some j /\ j <= k)
    /\ (forall id r',
          ~ In (delete_rest_api id, r')
               (calls (emitted (create_api aws self api_name lambda_name
                                  description w)))).
Proof.
  intros api_name lambda_name description w pre post c e k.
  unfold_program.
  repeat step_run;
    intros Hs Hk Hr;
    (apply failure_is_last in Hs; [| reflexivity]);
    destruct Hs as [-> Hf]; simpl in Hf;
    try discriminate Hf;
    injection Hf as <- <-;
    simpl in Hk; injection Hk as <-;
    try lia;
    (split; [reflexivity |]);
    (split; [reflexivity |]);
    (split; [intros c' r' Hin; each_call Hin;
             eexists; (split; [reflexivity | lia])
            | intros id r' Hin; no_such_call Hin]).
Qed.

(** No resource of a list has the path [p]. *)
Definition no_path (items : list Resource) (p : string) : Prop :=
  forall r, In r items -> resource_path r <> p.

Lemma filter_no_path :
  forall (items : list Resource) (p : string),
    no_path items p ->
    filter (fun resource => String.eqb (resource_path resource) p) items = [].
Proof.
  induction items as [| r items IH]; intros p H; simpl.
  - reflexivity.
  - destruct (String.eqb_spec (resource_path r) p) as [Heq | _].
    + exfalso. apply (H r); [left; reflexivity | exact Heq].
    + apply IH. intros r' Hin. apply H. right. exact Hin.
Qed.

(** C8.  When the listing [get_resources] answers right after the
    container was created has no resource with path /, [create_api]
    raises the IndexError of the unguarded [[...][0]]: an error that is
    none of FunctionNotFound, ResourceNotFound or a ClientError.  By then
    [create_rest_api] has answered, so the container exists, and nothing
    is called after the listing. *)
Theorem create_api_no_root_resource :
  forall (api_name lambda_name description : string) (w w1 w2 w3 : W)
         (fn : FunctionResponse) (api : IdResponse)
         (resources : ResourcesResponse),
    aws_get_function aws lambda_name w = (w1, inr fn) ->
    aws_create_rest_api aws api_name description ["REGIONAL"] w1
      = (w2, inr api) ->
    aws_get_resources aws (response_id api) w2 = (w3, inr resources) ->
    no_path (resources_items resources) "/" ->
    result (create_api aws self api_name lambda_name description w)
      = inl (IndexError "list index out of range")
    /\ is_ClientError (IndexError "list index out of range") = false
    /\ IndexError "list index out of range" <> FunctionNotFound lambda_name
    /\ (forall p, IndexError "list index out of range" <> ResourceNotFound p)
    /\ calls (emitted (create_api aws self api_name lambda_name description w))
       = [ (get_function lambda_name, inr (FunctionReply fn));
           (create_rest_api api_name description ["REGIONAL"],
            inr (IdReply api));
           (get_resources (response_id api), inr (ResourcesReply resources)) ].
Proof.
  intros api_name lambda_name description w w1 w2 w3 fn api resources
    Hfn Hapi Hres Hroot.
  unfold_program.
  rewrite Hfn. simpl. rewrite Hapi. simpl. rewrite Hres. simpl.
  rewrite (filter_no_path _ _ Hroot). simpl.
  repeat split; discriminate.
Qed.

(** C6.  When [delete_api] returns, it returns the dictionary with
    [status] deleted and the id it was given, and the one call of the run
    is [delete_rest_api] with that id: nothing else is asked of the
    gateway and nothing of the function registry. *)
Theorem delete_api_success :
  forall (api_id : string) (w : W) (d : dict),
    result (delete_api aws self api_id w) = inr d ->
    d = [("status", "deleted"); ("api_id", api_id)]
    /\ exists answer : json,
         calls (emitted (delete_api aws self api_id w))
         = [(delete_rest_api api_id, inr (RawReply answer))].
Proof.
  intros api_id w d.
  unfold_program.
  repeat (step_run; try (intros; discriminate)).
  intros H. injection H as <-.
  split; [reflexivity | eexists; reflexivity].
Qed.

Lemma first_with_path_none :
  forall (items : list Resource) (p : string),
    no_path items p -> first_with_path items p = None.
Proof.
  induction items as [| r items IH]; intros p H; simpl.
  - reflexivity.
  - destruct (String.eqb_spec (resource_path r) p) as [Heq | _].
    + exfalso. apply (H r); [left; reflexivity | exact Heq].
    + apply IH. intros r' Hin. apply H. right. exact Hin.
Qed.

(** When some resource has the path, the loop stops at the first one. *)
Lemma first_with_path_some :
  forall (items : list Resource) (p : string),
    (exists r, In r items /\ resource_path r = p) ->
    exists pre r post,
      items = (pre ++ r :: post)%list
      /\ resource_path r = p
      /\ no_path pre p
      /\ first_with_path items p = Some (resource_id r).
Proof.
  induction items as [| r0 items IH]; intros p (r & Hin & Hp).
  - destruct Hin.
  - simpl. destruct (String.eqb_spec (resource_path r0) p) as [Heq | Hne].
    + exists [], r0, items. repeat split; try assumption.
      intros r' [].
    + destruct Hin as [-> | Hin]; [contradiction |].
      destruct (IH p (ex_intro _ r (conj Hin Hp)))
        as (pre & r1 & post & -> & Hp1 & Hpre & Hf).
      exists (r0 :: pre), r1, post. repeat split; try assumption.
      intros r' [<- | Hin']; [exact Hne | apply Hpre; exact Hin'].
Qed.

(** C5.  Given the listing of the endpoint's resources: when no resource
    has exactly the path asked for, [test_invoke_api] raises the
    ValueError the specification calls ResourceNotFound and the listing
    is its only call, so [test_invoke_method] is not called; when some
    resource has that path, [test_invoke_method] is called with the id of
    the first such resource, and what it answers, response or exception,
    is what [test_invoke_api] returns or raises. *)
Theorem test_invoke_api_path :
  forall (api_id resource_path_ http_method : string) (body : option string)
         (w w1 : W) (resources : ResourcesResponse),
    aws_get_resources aws api_id w = (w1, inr resources) ->
    (no_path (resources_items resources) resource_path_ ->
       result (test_invoke_api aws self api_id resource_path_ http_method
                 body w)
         = inl (ResourceNotFound resource_path_)
       /\ calls (emitted (test_invoke_api aws self api_id resource_path_
                            http_method body w))
          = [(get_resources api_id, inr (ResourcesReply resources))])
    /\ ((exists r, In r (resources_items resources)
                   /\ resource_path r = resource_path_) ->
        exists pre r post,
          resources_items resources = (pre ++ r :: post)%list
          /\ resource_path r = resource_path_
          /\ no_path pre resource_path_
          /\ forall (w2 : W) (answer : exn + json),
               aws_test_invoke_method aws api_id (resource_id r) http_method
                 (or_else body "{}") w1 = (w2, answer) ->
               result (test_invoke_api aws self api_id resource_path_
                         http_method body w) = answer
               /\ calls (emitted (test_invoke_api aws self api_id
                                    resource_path_ http_method body w))
                  = [ (get_resources api_id, inr (ResourcesReply resources));
                      (test_invoke_method api_id (resource_id r) http_method
                         (or_else body "{}"),
                       map_result RawReply answer) ]).
Proof.
  intros api_id resource_path_ http_method body w w1 resources Hres.
  split.
  - intros Hno. unfold_program. rewrite Hres. simpl.
    rewrite (first_with_path_none _ _ Hno). simpl.
    split; reflexivity.
  - intros Hsome.
    destruct (first_with_path_some _ _ Hsome)
      as (pre & r & post & Hitems & Hp & Hpre & Hfirst).
    exists pre, r, post. repeat split; try assumption;
      unfold_program; rewrite Hres; simpl; rewrite Hfirst; simpl;
      rewrite H; destruct answer as [[] | ?]; reflexivity.
Qed.

(** C10.  When the path is found among the resources listed,
    [test_invoke_method] is called, once, and its [body] is {} when
    [test_invoke_api] got no body or the empty string, and the string
    [test_invoke_api] got otherwise. *)
Theorem test_invoke_api_body :
  forall (api_id resource_path_ http_method : string) (body : option string)
         (w w1 : W) (resources : ResourcesResponse),
    aws_get_resources aws api_id w = (w1, inr resources) ->
    (exists r, In r (resources_items resources)
               /\ resource_path r = resource_path_) ->
    exists (resource_id_ sent : string) (answer : exn + reply),
      calls (emitted (test_invoke_api aws self api_id resource_path_
                        http_method body w))
      = [ (get_resources api_id, inr (ResourcesReply resources));
          (test_invoke_method api_id resource_id_ http_method sent, answer) ]
      /\ (body = None \/ body = Some "" -> sent = "{}")
      /\ (forall s, body = Some s -> s <> "" -> sent = s).
Proof.
  intros api_id resource_path_ http_method body w w1 resources Hres Hsome.
  destruct (first_with_path_some _ _ Hsome)
    as (pre & r & post & _ & _ & _ & Hfirst).
  exists (resource_id r), (or_else body "{}").
  unfold_program. rewrite Hres. simpl. rewrite Hfirst. simpl.
  destruct (aws_test_invoke_method aws api_id (resource_id r) http_method
              (or_else body "{}") w1) as [w2 [e | a]] eqn:E;
    [destruct e |]; simpl;
    (eexists; split; [reflexivity |]);
    (split;
     [ intros [-> | ->]; reflexivity
     | intros s -> Hs; simpl;
       destruct (String.eqb_spec s ""); [contradiction | reflexivity] ]).
Qed.

End Create.

(** ** The session resolver *)

(** The calls of [boto3.Session] in a trace, in order. *)
Fixpoint sessions (t : trace) : list (SessionArgs * (exn + Session)) :=
  match t with
  | [] => []
  | NewSession args r :: t' => (args, r) :: sessions t'
  | _ :: t' => sessions t'
  end.

(** What a resolver does with a profile and a region: it calls
    [boto3.Session] once, with the region passed on, hands back what the
    constructor answered, and makes no call to AWS; the constructor gets
    no [profile_name] for the profile latest, the name itself for any
    other non-empty name, and asks for no named profile when there is
    none. *)
Definition binds_as_requested {W : Type}
    (resolver : option string -> option string -> M W Session) : Prop :=
  forall (profile region : option string) (w : W),
    exists (args : SessionArgs) (answer : exn + Session),
      sessions (emitted (resolver profile region w)) = [(args, answer)]
      /\ result (resolver profile region w) = answer
      /\ calls (emitted (resolver profile region w)) = []
      /\ kw_region_name args = Passed region
      /\ (profile = Some "latest" -> kw_profile_name args = Omitted)
      /\ (forall name, profile = Some name -> name <> "" -> name <> "latest" ->
            kw_profile_name args = Passed (Some name))
      /\ (profile = None -> requested_profile args = None).

Ltac session_cases :=
  repeat split; try reflexivity; intros; simpl; congruence.

(** C7.  Both resolvers, [ProfileManager.get_session] and
    [APIGatewayLambdaIntegration._create_session], bind the profile and
    the region they are asked for: latest leaves [profile_name] out of the
    constructor call, any other non-empty name is passed as
    [profile_name], no profile asks for no named profile (the ambient
    credential chain), and the region is passed on in every case. *)
Theorem session_resolver_binding :
  forall (W : Type) (aws : services W),
    binds_as_requested (get_session aws)
    /\ binds_as_requested (_create_session aws).
Proof.
  intros W aws. split; intros profile region w.
  - unfold_program.
    destruct profile as [name |]; simpl.
    + destruct (String.eqb_spec name "latest") as [-> | Hl]; simpl.
      * destruct (boto3_Session aws _ w) as [w' [e | s]] eqn:E; simpl;
          [destruct e; simpl |]; do 2 eexists; session_cases.
      * destruct (String.eqb_spec name "") as [-> | He]; simpl;
          destruct (boto3_Session aws _ w) as [w' [e | s]] eqn:E; simpl;
          try (destruct e; simpl); do 2 eexists; session_cases.
    + destruct (boto3_Session aws _ w) as [w' [e | s]] eqn:E; simpl;
        [destruct e; simpl |]; do 2 eexists; session_cases.
  - unfold_program.
    destruct profile as [name |]; simpl.
    + destruct (String.eqb_spec name "latest") as [-> | Hl]; simpl;
        destruct (boto3_Session aws _ w) as [w' [e | s]] eqn:E; simpl;
        do 2 eexists; session_cases.
    + destruct (boto3_Session aws _ w) as [w' [e | s]] eqn:E; simpl;
        do 2 eexists; session_cases.
Qed.

(** ** The statement id of the permission grant *)

(** The permission grants of a trace, each with its statement id and the
    latest reading of the clock before the call ([clock] until the trace
    reads the clock itself). *)
Fixpoint grants_at (clock : option Q) (t : trace) : list (option Q * string) :=
  match t with
  | [] => []
  | Clock now :: t' => grants_at (Some now) t'
  | Call (add_permission _ StatementId _ _ _) _ :: t' =>
      (clock, StatementId) :: grants_at clock t'
  | _ :: t' => grants_at clock t'
  end.

(** [str] of an integer can be read back, so it tells integers apart. *)
Lemma str_int_inj : forall a b : Z, str_int a = str_int b -> a = b.
Proof.
  intros a b H. unfold str_int in H.
  assert (Hd : Some (Z.to_int a) = Some (Z.to_int b)).
  { rewrite <- (NilEmpty.isi (Z.to_int a)), <- (NilEmpty.isi (Z.to_int b)).
    rewrite H. reflexivity. }
  injection Hd as Hd.
  rewrite <- (DecimalZ.of_to a), <- (DecimalZ.of_to b), Hd. reflexivity.
Qed.

Lemma statement_id_inj :
  forall a b : Z,
    "apigateway-" ++ str_int a = "apigateway-" ++ str_int b -> a = b.
Proof.
  intros a b H. apply str_int_inj.
  unfold String.append in H; fold String.append in H.
  injection H as H. exact H.
Qed.

(** C9.  A run of [create_api] that returns has issued one permission
    grant, and its statement id is apigateway- followed by the integer
    part of the clock read just before the grant.  So of any two such
    runs, whatever their worlds and arguments, those whose clocks agree
    on the integer part carry the same statement id and those whose
    clocks differ on it carry different ones: the arguments alone do not
    determine what [create_api] does. *)
Theorem create_api_statement_id :
  forall (W1 W2 : Type) (aws1 : services W1) (aws2 : services W2)
         (self1 self2 : APIGatewayLambdaIntegration)
         (api_name1 lambda_name1 description1 : string)
         (api_name2 lambda_name2 description2 : string)
         (w1 : W1) (w2 : W2) (d1 d2 : dict),
    result (create_api aws1 self1 api_name1 lambda_name1 description1 w1)
      = inr d1 ->
    result (create_api aws2 self2 api_name2 lambda_name2 description2 w2)
      = inr d2 ->
    exists (now1 now2 : Q) (id1 id2 : string),
      grants_at None
        (emitted (create_api aws1 self1 api_name1 lambda_name1 description1 w1))
      = [(Some now1, id1)]
      /\ grants_at None
           (emitted (create_api aws2 self2 api_name2 lambda_name2
                       description2 w2))
         = [(Some now2, id2)]
      /\ id1 = "apigateway-" ++ str_int (int_of_float now1)
      /\ id2 = "apigateway-" ++ str_int (int_of_float now2)
      /\ (int_of_float now1 = int_of_float now2 -> id1 = id2)
      /\ (int_of_float now1 <> int_of_float now2 -> id1 <> id2).
Proof.
  intros W1 W2 aws1 aws2 self1 self2 api_name1 lambda_name1 description1
    api_name2 lambda_name2 description2 w1 w2 d1 d2 H1 H2.
  destruct (create_api_success aws1 self1 _ _ _ _ _ H1)
    as (fn1 & api1 & resources1 & root1 & resource1 & account1 & now1
        & deployment1 & a5 & a6 & a7a & a7b & a8 & _ & _ & Ht1 & _).
  destruct (create_api_success aws2 self2 _ _ _ _ _ H2)
    as (fn2 & api2 & resources2 & root2 & resource2 & account2 & now2
        & deployment2 & b5 & b6 & b7a & b7b & b8 & _ & _ & Ht2 & _).
  exists now1, now2. do 2 eexists.
  rewrite Ht1, Ht2. simpl.
  split; [reflexivity |]. split; [reflexivity |].
  split; [reflexivity |]. split; [reflexivity |].
  split.
  - intros ->. reflexivity.
  - intros Hne Heq. apply Hne. apply statement_id_inj. exact Heq.
Qed.

(** ** The properties on the stub worlds *)

(** The example of the specification, run: the events and the result of
    [create("demo-api", "demo-fn", "desc")] at clock 1700000000.5. *)
Example create_api_demo :
  create_api (stub (demo (3400000001 # 2)%Q)) demo_self
    "demo-api" "demo-fn" "desc" tt
  = Outcome tt
      [ Log INFO "Getting Lambda function: demo-fn";
        Call (get_function "demo-fn") (inr (FunctionReply demo_function));
        Log INFO "Creating API Gateway: demo-api";
        Call (create_rest_api "demo-api" "desc" ["REGIONAL"])
          (inr (IdReply {| response_id := "api123" |}));
        Call (get_resources "api123") (inr (ResourcesReply demo_resources));
        Call (create_resource "api123" "root123" "demo-fn")
          (inr (IdReply {| response_id := "node123" |}));
        Call (put_method "api123" "node123" "POST" "NONE")
          (inr (RawReply (JDict [])));
        Call (put_integration "api123" "node123" "POST" "AWS" "POST"
                "arn:aws:apigateway:us-east-1:lambda:path/2015-03-31/functions/arn:aws:lambda:us-east-1:123456789012:function:demo-fn/invocations")
          (inr (RawReply (JDict [])));
        Call (put_method_response "api123" "node123" "POST" "200"
                [("application/json", "Empty")])
          (inr (RawReply (JDict [])));
        Call (put_integration_response "api123" "node123" "POST" "200"
                [("application/json", "")])
          (inr (RawReply (JDict [])));
        Log INFO "Adding Lambda permission for: demo-fn";
        Clock (3400000001 # 2)%Q;
        Call (add_permission "demo-fn" "apigateway-1700000000"
                "lambda:InvokeFunction" "apigateway.amazonaws.com"
                "arn:aws:execute-api:us-east-1:123456789012:api123/*/*/demo-fn")
          (inr (RawReply (JDict [("Statement", JStr "{}")])));
        Call (create_deployment "api123" "prod")
          (inr (IdReply {| response_id := "deployment123" |})) ]
      (inr [ ("api_id", "api123");
             ("api_name", "demo-api");
             ("lambda_name", "demo-fn");
             ("lambda_arn",
              "arn:aws:lambda:us-east-1:123456789012:function:demo-fn");
             ("invoke_url",
              "https://api123.execute-api.us-east-1.amazonaws.com/prod/demo-fn");
             ("deployment_id", "deployment123");
             ("stage", "prod") ]).
Proof. vm_compute. reflexivity. Qed.

(** The registry does not know the function. *)
Definition unknown_function : canned :=
  scenario (1700000000 # 1)%Q
    (inl (ClientError "ResourceNotFoundException"
            "An error occurred (ResourceNotFoundException) when calling the GetFunction operation: Function not found"))
    (inr demo_resources) (inr {| response_id := "node123" |}).

Lemma create_api_function_not_found_witness :
  result (create_api (stub unknown_function) demo_self
            "test-api" "test-lambda" "Test API" tt)
    = inl (ValueError "Lambda function 'test-lambda' not found")
  /\ gateway_calls
       (emitted (create_api (stub unknown_function) demo_self
                   "test-api" "test-lambda" "Test API" tt)) = [].
Proof.
  destruct (create_api_function_not_found (stub unknown_function) demo_self
              "test-api" "test-lambda" "Test API" tt tt _ eq_refl)
    as (Hr & _ & Hg).
  split; [exact Hr | exact Hg].
Defined.

(** What [create_api] returns in the example of the specification. *)
Definition demo_descriptor : dict :=
  [ ("api_id", "api123");
    ("api_name", "demo-api");
    ("lambda_name", "demo-fn");
    ("lambda_arn", "arn:aws:lambda:us-east-1:123456789012:function:demo-fn");
    ("invoke_url",
     "https://api123.execute-api.us-east-1.amazonaws.com/prod/demo-fn");
    ("deployment_id", "deployment123");
    ("stage", "prod") ].

Lemma create_api_invoke_url_witness :
  result (create_api (stub (demo (1700000000 # 1)%Q)) demo_self
            "demo-api" "demo-fn" "desc" tt) = inr demo_descriptor
  /\ dict_get demo_descriptor "invoke_url"
     = Some "https://api123.execute-api.us-east-1.amazonaws.com/prod/demo-fn"
  /\ dict_get demo_descriptor "stage" = Some "prod".
Proof.
  split; [reflexivity |].
  destruct (create_api_invoke_url (stub (demo (1700000000 # 1)%Q)) demo_self
              "demo-api" "demo-fn" "desc" tt demo_descriptor eq_refl)
    as (api & _ & Hid & Hurl & Hstage).
  injection Hid as Hid. rewrite <- Hid in Hurl.
  split; [exact Hurl | exact Hstage].
Defined.

Lemma create_api_permission_grant_witness :
  result (create_api (stub (demo (1700000000 # 1)%Q)) demo_self
            "demo-api" "demo-fn" "desc" tt) = inr demo_descriptor
  /\ exists (statement_id : string) (answer : json),
       permission_grants
         (emitted (create_api (stub (demo (1700000000 # 1)%Q)) demo_self
                     "demo-api" "demo-fn" "desc" tt))
       = [(add_permission "demo-fn" statement_id "lambda:InvokeFunction"
             "apigateway.amazonaws.com"
             "arn:aws:execute-api:us-east-1:123456789012:api123/*/*/demo-fn",
           inr (RawReply answer))].
Proof.
  split; [reflexivity |].
  destruct (create_api_permission_grant (stub (demo (1700000000 # 1)%Q))
              demo_self "demo-api" "demo-fn" "desc" tt demo_descriptor eq_refl)
    as (fn & api & account_id & statement_id & answer
        & Hfn & Hapi & Hacc & Hgrant & _).
  exists statement_id, answer.
  destruct Hfn as [Hfn | Hfn]; [| exact (False_ind _ ltac:(no_such_call Hfn))].
  injection Hfn as <-.
  destruct Hapi as [Hapi | [Hapi | Hapi]];
    [discriminate Hapi | | exact (False_ind _ ltac:(no_such_call Hapi))].
  injection Hapi as <-.
  injection Hacc as <-.
  exact Hgrant.
Defined.

(** The gateway refuses to create the resource. *)
Definition resource_refused : canned :=
  scenario (1700000000 # 1)%Q (inr demo_function) (inr demo_resources)
    (inl (ClientError "TooManyRequestsException" "Rate exceeded")).

Lemma create_api_failure_propagates_witness :
  result (create_api (stub resource_refused) demo_self
            "demo-api" "demo-fn" "desc" tt)
    = inl (ClientError "TooManyRequestsException" "Rate exceeded")
  /\ calls (emitted (create_api (stub resource_refused) demo_self
                       "demo-api" "demo-fn" "desc" tt))
     = [ (get_function "demo-fn", inr (FunctionReply demo_function));
         (create_rest_api "demo-api" "desc" ["REGIONAL"],
          inr (IdReply {| response_id := "api123" |}));
         (get_resources "api123", inr (ResourcesReply demo_resources));
         (create_resource "api123" "root123" "demo-fn",
          inl (ClientError "TooManyRequestsException" "Rate exceeded")) ]
  /\ forall id r',
       ~ In (delete_rest_api id, r')
            (calls (emitted (create_api (stub resource_refused) demo_self
                               "demo-api" "demo-fn" "desc" tt))).
Proof.
  destruct (create_api_failure_propagates (stub resource_refused) demo_self
              "demo-api" "demo-fn" "desc" tt
              [ (get_function "demo-fn", inr (FunctionReply demo_function));
                (create_rest_api "demo-api" "desc" ["REGIONAL"],
                 inr (IdReply {| response_id := "api123" |}));
                (get_resources "api123", inr (ResourcesReply demo_resources)) ]
              []
              (create_resource "api123" "root123" "demo-fn")
              (ClientError "TooManyRequestsException" "Rate exceeded")
              4 eq_refl eq_refl
              (conj (le_S _ _ (le_S _ _ (le_n 2)))
                    (le_S _ _ (le_S _ _ (le_S _ _ (le_S _ _
                       (le_S _ _ (le_n 4))))))))
    as (Hr & _ & _ & Hundo).
  split; [exact Hr |]. split; [reflexivity | exact Hundo].
Defined.

(** The listing has no root resource. *)
Definition rootless : ResourcesResponse :=
  {| resources_items :=
       [ {| resource_id := "node123"; resource_path := "/demo-fn" |} ] |}.

Definition no_root : canned :=
  scenario (1700000000 # 1)%Q (inr demo_function) (inr rootless)
    (inr {| response_id := "node123" |}).

Lemma rootless_no_path : no_path (resources_items rootless) "/".
Proof.
  intros r [<- | []]. discriminate.
Defined.

Lemma create_api_no_root_resource_witness :
  no_path (resources_items rootless) "/"
  /\ result (create_api (stub no_root) demo_self "demo-api" "demo-fn" "desc" tt)
     = inl (IndexError "list index out of range")
  /\ calls (emitted (create_api (stub no_root) demo_self
                       "demo-api" "demo-fn" "desc" tt))
     = [ (get_function "demo-fn", inr (FunctionReply demo_function));
         (create_rest_api "demo-api" "desc" ["REGIONAL"],
          inr (IdReply {| response_id := "api123" |}));
         (get_resources "api123", inr (ResourcesReply rootless)) ].
Proof.
  split; [exact rootless_no_path |].
  destruct (create_api_no_root_resource (stub no_root) demo_self
              "demo-api" "demo-fn" "desc" tt tt tt tt
              demo_function {| response_id := "api123" |} rootless
              eq_refl eq_refl eq_refl rootless_no_path)
    as (Hr & _ & _ & _ & Hc).
  split; [exact Hr | exact Hc].
Defined.

Lemma delete_api_success_witness :
  result (delete_api (stub (demo (1700000000 # 1)%Q)) demo_self "api123" tt)
    = inr [("status", "deleted"); ("api_id", "api123")]
  /\ exists answer : json,
       calls (emitted (delete_api (stub (demo (1700000000 # 1)%Q)) demo_self
                         "api123" tt))
       = [(delete_rest_api "api123", inr (RawReply answer))].
Proof.
  split; [reflexivity |].
  exact (proj2 (delete_api_success (stub (demo (1700000000 # 1)%Q)) demo_self
                  "api123" tt _ eq_refl)).
Defined.

Lemma demo_no_missing_path : no_path (resources_items demo_resources) "/missing".
Proof.
  intros r [<- | [<- | []]]; discriminate.
Defined.

Lemma test_invoke_api_path_witness :
  (result (test_invoke_api (stub (demo (1700000000 # 1)%Q)) demo_self
             "api123" "/missing" "POST" None tt)
     = inl (ValueError "Resource not found: /missing")
   /\ calls (emitted (test_invoke_api (stub (demo (1700000000 # 1)%Q))
                        demo_self "api123" "/missing" "POST" None tt))
      = [(get_resources "api123", inr (ResourcesReply demo_resources))])
  /\ exists pre r post,
       resources_items demo_resources = (pre ++ r :: post)%list
       /\ resource_path r = "/demo-fn"
       /\ no_path pre "/demo-fn"
       /\ result (test_invoke_api (stub (demo (1700000000 # 1)%Q)) demo_self
                    "api123" "/demo-fn" "POST" (Some "{}") tt)
          = inr (JDict [("status", JInt 200); ("body", JStr "{}")])
       /\ calls (emitted (test_invoke_api (stub (demo (1700000000 # 1)%Q))
                            demo_self "api123" "/demo-fn" "POST" (Some "{}") tt))
          = [ (get_resources "api123", inr (ResourcesReply demo_resources));
              (test_invoke_method "api123" (resource_id r) "POST" "{}",
               inr (RawReply
                      (JDict [("status", JInt 200); ("body", JStr "{}")]))) ].
Proof.
  split.
  - exact (proj1 (test_invoke_api_path (stub (demo (1700000000 # 1)%Q))
                    demo_self "api123" "/missing" "POST" None tt tt
                    demo_resources eq_refl) demo_no_missing_path).
  - destruct (proj2 (test_invoke_api_path (stub (demo (1700000000 # 1)%Q))
                       demo_self "api123" "/demo-fn" "POST" (Some "{}") tt tt
                       demo_resources eq_refl)
                (ex_intro _ {| resource_id := "node123";
                               resource_path := "/demo-fn" |}
                   (conj (or_intror (or_introl eq_refl)) eq_refl)))
      as (pre & r & post & Hitems & Hp & Hpre & Hrun).
    exists pre, r, post.
    destruct (Hrun tt _ eq_refl) as (Hr & Hc).
    repeat split; assumption.
Defined.

Lemma test_invoke_api_body_witness :
  exists (resource_id_ : string) (answer : exn + reply),
    calls (emitted (test_invoke_api (stub (demo (1700000000 # 1)%Q)) demo_self
                      "api123" "/demo-fn" "POST" None tt))
    = [ (get_resources "api123", inr (ResourcesReply demo_resources));
        (test_invoke_method "api123" resource_id_ "POST" "{}", answer) ].
Proof.
  destruct (test_invoke_api_body (stub (demo (1700000000 # 1)%Q)) demo_self
              "api123" "/demo-fn" "POST" None tt tt demo_resources eq_refl
              (ex_intro _ {| resource_id := "node123";
                             resource_path := "/demo-fn" |}
                 (conj (or_intror (or_introl eq_refl)) eq_refl)))
    as (id & sent & answer & Hc & Hempty & _).
  exists id, answer.
  rewrite <- (Hempty (or_introl eq_refl)). exact Hc.
Defined.

(** Two runs with the same arguments and the same answers, half a second
    apart within one second of the clock, and a third one second later. *)
Lemma create_api_statement_id_witness :
  (exists now1 now2 id,
     grants_at None
       (emitted (create_api (stub (demo (3400000000 # 2)%Q)) demo_self
                   "demo-api" "demo-fn" "desc" tt)) = [(Some now1, id)]
     /\ grants_at None
          (emitted (create_api (stub (demo (3400000001 # 2)%Q)) demo_self
                      "other-api" "demo-fn" "" tt)) = [(Some now2, id)])
  /\ (exists now1 now2 id1 id2,
        grants_at None
          (emitted (create_api (stub (demo (3400000000 # 2)%Q)) demo_self
                      "demo-api" "demo-fn" "desc" tt)) = [(Some now1, id1)]
        /\ grants_at None
             (emitted (create_api (stub (demo (3400000002 # 2)%Q)) demo_self
                         "demo-api" "demo-fn" "desc" tt)) = [(Some now2, id2)]
        /\ id1 <> id2).
Proof.
  split.
  - destruct (create_api_statement_id unit unit
                (stub (demo (3400000000 # 2)%Q)) (stub (demo (3400000001 # 2)%Q))
                demo_self demo_self "demo-api" "demo-fn" "desc"
                "other-api" "demo-fn" "" tt tt _ _ eq_refl eq_refl)
      as (now1 & now2 & id1 & id2 & H1 & H2 & E1 & E2 & Hsame & _).
    exists now1, now2, id1. split; [exact H1 |].
    assert (Hs : int_of_float now1 = int_of_float now2).
    { injection H1 as <- _. injection H2 as <- _. reflexivity. }
    rewrite (Hsame Hs). exact H2.
  - destruct (create_api_statement_id unit unit
                (stub (demo (3400000000 # 2)%Q)) (stub (demo (3400000002 # 2)%Q))
                demo_self demo_self "demo-api" "demo-fn" "desc"
                "demo-api" "demo-fn" "desc" tt tt _ _ eq_refl eq_refl)
      as (now1 & now2 & id1 & id2 & H1 & H2 & E1 & E2 & _ & Hdiff).
    exists now1, now2, id1, id2. split; [exact H1 |]. split; [exact H2 |].
    apply Hdiff.
    injection H1 as <- _. injection H2 as <- _. discriminate.
Defined.


(** * More of the code: the helpers, the pass-through operations, the
    constructor *)

(** The test of [_get_lambda_function]'s handler: a [ClientError] whose
    code is ResourceNotFoundException. *)
Definition is_not_found (e : exn) : bool :=
  match e with
  | ClientError code _ => String.eqb code "ResourceNotFoundException"
  | _ => false
  end.

(** The messages a trace logs at level ERROR, in order. *)
Fixpoint errors_logged (t : trace) : list string :=
  match t with
  | [] => []
  | Log ERROR message :: t' => message :: errors_logged t'
  | _ :: t' => errors_logged t'
  end.

(** The services the clients were created for, in order. *)
Fixpoint clients_created (t : trace) : list (string * (exn + unit)) :=
  match t with
  | [] => []
  | NewClient service r :: t' => (service, r) :: clients_created t'
  | _ :: t' => clients_created t'
  end.

(** The readings of the clock in a trace, in order. *)
Fixpoint clock_reads (t : trace) : list Q :=
  match t with
  | [] => []
  | Clock now :: t' => now :: clock_reads t'
  | _ :: t' => clock_reads t'
  end.

(** The [restApiId] a call carries, if it has one. *)
Definition restApiId_of (c : call) : option string :=
  match c with
  | get_resources id | create_resource id _ _ | put_method id _ _ _
  | put_integration id _ _ _ _ _ | put_method_response id _ _ _ _
  | put_integration_response id _ _ _ _ | create_deployment id _
  | delete_rest_api id | get_rest_api id | test_invoke_method id _ _ _ =>
      Some id
  | get_function _ | add_permission _ _ _ _ _ | create_rest_api _ _ _
  | get_rest_apis => None
  end.

(** The steps of [create_api] in the order of the source; step 7 has two
    calls. *)
Definition procedure : list nat := [1; 2; 3; 4; 5; 6; 7; 7; 8; 9].

Ltac unfold_more :=
  unfold __init__, list_apis, get_api;
  unfold client_, apigateway_client_get_rest_apis,
    apigateway_client_get_rest_api;
  unfold_program.

(** The list comprehension of [create_api] followed by [[0]] and the
    loop of [_get_resource_id] find the same resource. *)
Lemma root_lookup :
  forall (items : list Resource) (p : string),
    nth_error
      (map resource_id
         (filter (fun resource => String.eqb (resource_path resource) p) items))
      0
    = first_with_path items p.
Proof.
  induction items as [| r items IH]; intros p; simpl.
  - reflexivity.
  - destruct (String.eqb (resource_path r) p); simpl.
    + reflexivity.
    + apply IH.
Qed.

Section More.

Context {W : Type} (aws : services W) (self : APIGatewayLambdaIntegration).

(** X1.  [_get_lambda_function] makes one call, [get_function] for the
    name it got; it returns the response when the registry answers,
    [None] when the registry raises a ClientError with the code
    ResourceNotFoundException, and raises whatever else the registry
    raises, unchanged. *)
Theorem get_lambda_function_answers :
  forall (lambda_name : string) (w w' : W) (answer : exn + FunctionResponse),
    aws_get_function aws lambda_name w = (w', answer) ->
    calls (emitted (_get_lambda_function aws self lambda_name w))
      = [(get_function lambda_name, map_result FunctionReply answer)]
    /\ result (_get_lambda_function aws self lambda_name w)
       = match answer with
         | inr response => inr (Some response)
         | inl e => if is_not_found e then inr None else inl e
         end.
Proof.
  intros lambda_name w w' answer H. unfold_program. rewrite H.
  destruct answer as [e | f]; [destruct e |]; simpl; try (split; reflexivity).
  destruct (String.eqb code "ResourceNotFoundException"); split; reflexivity.
Qed.

(** X2.  When [get_function] raises anything but the not-found error,
    [create_api] raises that same exception, [get_function] is its only
    call, so nothing is created, and a ClientError is logged twice at
    level ERROR, once by [_get_lambda_function] and once by [create_api];
    any other exception is not logged at all. *)
Theorem create_api_registry_error :
  forall (api_name lambda_name description : string) (w w' : W) (e : exn),
    aws_get_function aws lambda_name w = (w', inl e) ->
    is_not_found e = false ->
    result (create_api aws self api_name lambda_name description w) = inl e
    /\ calls (emitted (create_api aws self api_name lambda_name description w))
       = [(get_function lambda_name, inl e)]
    /\ errors_logged
         (emitted (create_api aws self api_name lambda_name description w))
       = if is_ClientError e
         then [ "Error getting Lambda function: " ++ exn_str e;
                "Error creating API Gateway: " ++ exn_str e ]
         else [].
Proof.
  intros api_name lambda_name description w w' e H Hnf.
  unfold_program. rewrite H.
  destruct e; simpl in *; try (repeat split; reflexivity).
  rewrite Hnf. simpl. repeat split; reflexivity.
Qed.

(** X3.  When the FunctionArn the registry answered has fewer than five
    colon-separated fields, [create_api] raises the IndexError of the
    unguarded [split(':')[4]] after [put_method]: by then the container,
    the resource and the method exist, and [put_integration] is never
    called. *)
Theorem create_api_short_arn :
  forall (api_name lambda_name description root_id : string)
         (w w1 w2 w3 w4 w5 : W)
         (fn : FunctionResponse) (api node : IdResponse)
         (resources : ResourcesResponse) (ack : json),
    aws_get_function aws lambda_name w = (w1, inr fn) ->
    aws_create_rest_api aws api_name description ["REGIONAL"] w1
      = (w2, inr api) ->
    aws_get_resources aws (response_id api) w2 = (w3, inr resources) ->
    first_with_path (resources_items resources) "/" = Some root_id ->
    aws_create_resource aws (response_id api) root_id lambda_name w3
      = (w4, inr node) ->
    aws_put_method aws (response_id api) (response_id node) "POST" "NONE" w4
      = (w5, inr ack) ->
    length (split ":" (Configuration_FunctionArn fn)) < 5 ->
    result (create_api aws self api_name lambda_name description w)
      = inl (IndexError "list index out of range")
    /\ calls (emitted (create_api aws self api_name lambda_name description w))
       = [ (get_function lambda_name, inr (FunctionReply fn));
           (create_rest_api api_name description ["REGIONAL"],
            inr (IdReply api));
           (get_resources (response_id api), inr (ResourcesReply resources));
           (create_resource (response_id api) root_id lambda_name,
            inr (IdReply node));
           (put_method (response_id api) (response_id node) "POST" "NONE",
            inr (RawReply ack)) ].
Proof.
  intros api_name lambda_name description root_id w w1 w2 w3 w4 w5
    fn api node resources ack Hfn Hapi Hres Hroot Hnode Hput Hshort.
  assert (Hnone : nth_error (split ":" (Configuration_FunctionArn fn)) 4
                  = None).
  { apply nth_error_None. lia. }
  unfold_program.
  rewrite Hfn. simpl. rewrite Hapi. simpl. rewrite Hres. simpl.
  rewrite root_lookup, Hroot. simpl. rewrite Hnode. simpl.
  rewrite Hput. simpl. rewrite Hnone. simpl.
  split; reflexivity.
Qed.

(** Every run of [create_api], whatever the world answers. *)
Lemma create_api_run_shape :
  forall (api_name lambda_name description : string) (w : W),
    (map (fun cr => step (fst cr))
       (calls (emitted (create_api aws self api_name lambda_name description w)))
     = map Some
         (firstn
            (length
               (calls (emitted (create_api aws self api_name lambda_name
                                  description w))))
            procedure))
    /\ after_first_failure
         (calls (emitted (create_api aws self api_name lambda_name
                            description w))) = []
    /\ (forall e,
          result (create_api aws self api_name lambda_name description w)
            = inl e ->
          e = FunctionNotFound lambda_name
          \/ e = IndexError "list index out of range"
          \/ exists c,
               failures
                 (calls (emitted (create_api aws self api_name lambda_name
                                    description w))) = [(c, e)])
    /\ (forall c r id,
          In (c, r)
             (calls (emitted (create_api aws self api_name lambda_name
                                description w))) ->
          restApiId_of c = Some id ->
          exists api,
            In (create_rest_api api_name description ["REGIONAL"],
                inr (IdReply api))
               (calls (emitted (create_api aws self api_name lambda_name
                                  description w)))
            /\ id = response_id api).
Proof.
  intros api_name lambda_name description w.
  unfold_program.
  repeat step_run;
    (split; [reflexivity |]);
    (split; [reflexivity |]);
    (split;
     [ intros e' He'; try discriminate He'; injection He' as <-;
       first [ left; reflexivity
             | right; left; reflexivity
             | right; right; eexists; reflexivity ]
     | intros c' r' id' Hin Hid; each_call Hin; simpl in Hid;
       try discriminate Hid; injection Hid as <-;
       eexists; (split; [right; left; reflexivity | reflexivity]) ]).
Qed.

End More.

Section Runs.

Context {W : Type} (aws : services W) (self : APIGatewayLambdaIntegration).


(** X5.  The exceptions [create_api] can raise: the ValueError for a
    function that was not found, the IndexError of one of its two
    unguarded list lookups, or the exception raised by the one call of
    the run that failed. *)
Theorem create_api_errors :
  forall (api_name lambda_name description : string) (w : W) (e : exn),
    result (create_api aws self api_name lambda_name description w) = inl e ->
    e = FunctionNotFound lambda_name
    \/ e = IndexError "list index out of range"
    \/ exists c,
         failures
           (calls (emitted (create_api aws self api_name lambda_name
                              description w))) = [(c, e)].
Proof.
  intros api_name lambda_name description w e H.
  destruct (create_api_run_shape aws self api_name lambda_name description w)
    as (_ & _ & H3 & _).
  apply H3. exact H.
Qed.

(** X6.  In every run of [create_api], every call that carries a
    [restApiId] carries the id the gateway answered this run's
    [create_rest_api] with: no other REST API is touched. *)
Theorem create_api_one_rest_api :
  forall (api_name lambda_name description : string) (w : W)
         (c : call) (r : exn + reply) (id : string),
    In (c, r)
       (calls (emitted (create_api aws self api_name lambda_name
                          description w))) ->
    restApiId_of c = Some id ->
    exists api,
      In (create_rest_api api_name description ["REGIONAL"], inr (IdReply api))
         (calls (emitted (create_api aws self api_name lambda_name
                            description w)))
      /\ id = response_id api.
Proof.
  intros api_name lambda_name description w c r id Hin Hid.
  destruct (create_api_run_shape aws self api_name lambda_name description w)
    as (_ & _ & _ & H4).
  apply (H4 c r id Hin Hid).
Qed.

(** X7.  When [create_api] returns, the gateway has seen exactly eight
    calls, all answered: the container with endpoint type REGIONAL, the
    listing, the resource named after the function under the first listed
    resource with path /, the POST method without authorization, the AWS
    integration with the invocation URI of the function, the 200 method
    response with the Empty model, the 200 integration response with an
    empty template, and the deployment to stage prod. *)
Theorem create_api_provisions :
  forall (api_name lambda_name description : string) (w : W) (d : dict),
    result (create_api aws self api_name lambda_name description w) = inr d ->
    exists (fn : FunctionResponse) (api node deployment : IdResponse)
           (resources : ResourcesResponse) (root_id : string)
           (a5 a6 a7 a8 : json),
      let id := response_id api in
      let region := fstr_opt (session_region_name (session self)) in
      In (get_function lambda_name, inr (FunctionReply fn))
         (calls (emitted (create_api aws self api_name lambda_name
                            description w)))
      /\ first_with_path (resources_items resources) "/" = Some root_id
      /\ gateway_calls
           (emitted (create_api aws self api_name lambda_name description w))
         = [ (create_rest_api api_name description ["REGIONAL"],
              inr (IdReply api));
             (get_resources id, inr (ResourcesReply resources));
             (create_resource id root_id lambda_name, inr (IdReply node));
             (put_method id (response_id node) "POST" "NONE",
              inr (RawReply a5));
             (put_integration id (response_id node) "POST" "AWS" "POST"
                ("arn:aws:apigateway:" ++ region
                   ++ ":lambda:path/2015-03-31/functions/"
                   ++ Configuration_FunctionArn fn ++ "/invocations"),
              inr (RawReply a6));
             (put_method_response id (response_id node) "POST" "200"
                [("application/json", "Empty")],
              inr (RawReply a7));
             (put_integration_response id (response_id node) "POST" "200"
                [("application/json", "")],
              inr (RawReply a8));
             (create_deployment id "prod", inr (IdReply deployment)) ].
Proof.
  intros api_name lambda_name description w d H.
  destruct (create_api_success aws self _ _ _ _ _ H)
    as (fn & api & resources & root_id & resource & account_id & now
        & deployment & r5 & r6 & r7a & r7b & r8 & Hroot & _ & Ht & _).
  exists fn, api, resource, deployment, resources, root_id, r5, r6, r7a, r7b.
  cbv zeta. rewrite Ht. rewrite root_lookup in Hroot.
  split; [left; reflexivity |].
  split; [exact Hroot | reflexivity].
Qed.

(** X8.  When [create_api] returns, the dictionary has the seven keys
    of the source in their order; [api_name] and [lambda_name] are the
    arguments, [lambda_arn] is the FunctionArn the registry answered and
    [deployment_id] is the id the gateway answered [create_deployment]
    with. *)
Theorem create_api_descriptor :
  forall (api_name lambda_name description : string) (w : W) (d : dict),
    result (create_api aws self api_name lambda_name description w) = inr d ->
    exists (fn : FunctionResponse) (deployment : IdResponse),
      In (get_function lambda_name, inr (FunctionReply fn))
         (calls (emitted (create_api aws self api_name lambda_name
                            description w)))
      /\ (exists id,
            In (create_deployment id "prod", inr (IdReply deployment))
               (calls (emitted (create_api aws self api_name lambda_name
                                  description w))))
      /\ map fst d
         = [ "api_id"; "api_name"; "lambda_name"; "lambda_arn"; "invoke_url";
             "deployment_id"; "stage" ]
      /\ dict_get d "api_name" = Some api_name
      /\ dict_get d "lambda_name" = Some lambda_name
      /\ dict_get d "lambda_arn" = Some (Configuration_FunctionArn fn)
      /\ dict_get d "deployment_id" = Some (response_id deployment).
Proof.
  intros api_name lambda_name description w d H.
  destruct (create_api_success aws self _ _ _ _ _ H)
    as (fn & api & resources & root_id & resource & account_id & now
        & deployment & r5 & r6 & r7a & r7b & r8 & _ & _ & Ht & ->).
  exists fn, deployment. rewrite Ht. simpl.
  split; [left; reflexivity |].
  split; [eexists; do 9 right; left; reflexivity |].
  repeat split.
Qed.

(** X9.  Every run of [_add_lambda_permission] reads the clock once and
    makes one call: [add_permission] for the function, with the statement
    id built from that reading, the action lambda:InvokeFunction, the
    principal apigateway.amazonaws.com and the source ARN it was given;
    it returns or raises what that call answers. *)
Theorem add_lambda_permission_call :
  forall (lambda_name source_arn : string) (w : W),
    exists (now : Q) (answer : exn + json),
      clock_reads (emitted (_add_lambda_permission aws self lambda_name
                              source_arn w)) = [now]
      /\ calls (emitted (_add_lambda_permission aws self lambda_name
                           source_arn w))
         = [ (add_permission lambda_name
                ("apigateway-" ++ str_int (int_of_float now))
                "lambda:InvokeFunction" "apigateway.amazonaws.com" source_arn,
              map_result RawReply answer) ]
      /\ result (_add_lambda_permission aws self lambda_name source_arn w)
         = answer.
Proof.
  intros lambda_name source_arn w.
  unfold_program.
  repeat step_run; do 2 eexists; repeat split; reflexivity.
Qed.

End Runs.

Section Operations.

Context {W : Type} (aws : services W) (self : APIGatewayLambdaIntegration).

(** X10.  When [get_resources] raises, [test_invoke_api] raises the
    same exception and [test_invoke_method] is not called; a ClientError
    is logged twice at level ERROR, by [_get_resource_id] and by
    [test_invoke_api], and any other exception is not logged. *)
Theorem test_invoke_api_listing_fails :
  forall (api_id resource_path_ http_method : string) (body : option string)
         (w w' : W) (e : exn),
    aws_get_resources aws api_id w = (w', inl e) ->
    result (test_invoke_api aws self api_id resource_path_ http_method body w)
      = inl e
    /\ calls (emitted (test_invoke_api aws self api_id resource_path_
                         http_method body w))
       = [(get_resources api_id, inl e)]
    /\ errors_logged (emitted (test_invoke_api aws self api_id resource_path_
                                 http_method body w))
       = if is_ClientError e
         then [ "Error getting resource ID: " ++ exn_str e;
                "Error test invoking API Gateway: " ++ exn_str e ]
         else [].
Proof.
  intros api_id resource_path_ http_method body w w' e H.
  unfold_program. rewrite H.
  destruct e; simpl; repeat split; reflexivity.
Qed.

(** X11.  Every run of [test_invoke_api] lists the resources of the
    endpoint anew, once and first, and makes at most one further call:
    [test_invoke_method] on the same endpoint with the method it was
    given and the body, or {} for a missing or empty one. *)
Theorem test_invoke_api_calls :
  forall (api_id resource_path_ http_method : string) (body : option string)
         (w : W),
    exists listing : exn + reply,
      calls (emitted (test_invoke_api aws self api_id resource_path_
                        http_method body w))
        = [(get_resources api_id, listing)]
      \/ exists (resource_id_ : string) (answer : exn + reply),
           calls (emitted (test_invoke_api aws self api_id resource_path_
                             http_method body w))
           = [ (get_resources api_id, listing);
               (test_invoke_method api_id resource_id_ http_method
                  (or_else body "{}"), answer) ].
Proof.
  intros api_id resource_path_ http_method body w.
  unfold_program.
  destruct (aws_get_resources aws api_id w) as [w1 [e | resources]] eqn:E;
    [destruct e |]; simpl; try (eexists; left; reflexivity).
  destruct (first_with_path (resources_items resources) resource_path_)
    as [id |]; simpl; [| eexists; left; reflexivity].
  destruct (aws_test_invoke_method aws api_id id http_method
              (or_else body "{}") w1) as [w2 [e | a]] eqn:E2;
    [destruct e |]; simpl; eexists; right; do 2 eexists; reflexivity.
Qed.

(** X12.  Every run of [delete_api] makes one call,
    [delete_rest_api] with the id it got; it returns the dictionary with
    [status] deleted and that id when the call answers and raises the
    call's exception otherwise, logging it once at level ERROR when it is
    a ClientError. *)
Theorem delete_api_answers :
  forall (api_id : string) (w w' : W) (answer : exn + json),
    aws_delete_rest_api aws api_id w = (w', answer) ->
    calls (emitted (delete_api aws self api_id w))
      = [(delete_rest_api api_id, map_result RawReply answer)]
    /\ result (delete_api aws self api_id w)
       = match answer with
         | inl e => inl e
         | inr _ => inr [("status", "deleted"); ("api_id", api_id)]
         end
    /\ errors_logged (emitted (delete_api aws self api_id w))
       = match answer with
         | inl (ClientError code text) =>
             ["Error deleting API Gateway: " ++ text]
         | _ => []
         end.
Proof.
  intros api_id w w' answer H.
  unfold_program. rewrite H.
  destruct answer as [e | a]; [destruct e |]; simpl; repeat split; reflexivity.
Qed.

(** X13.  [list_apis] and [get_api] pass through: each makes one call
    ([get_rest_apis] once, with no pagination, and [get_rest_api] with
    the id), and returns the items, or the response, or raises the
    exception, just as the call answered. *)
Theorem pass_through_answers :
  (forall (w w' : W) (answer : exn + RestApisResponse),
     aws_get_rest_apis aws w = (w', answer) ->
     calls (emitted (list_apis aws self w))
       = [(get_rest_apis, map_result RestApisReply answer)]
     /\ result (list_apis aws self w) = map_result apis_items answer)
  /\ (forall (api_id : string) (w w' : W) (answer : exn + json),
        aws_get_rest_api aws api_id w = (w', answer) ->
        calls (emitted (get_api aws self api_id w))
          = [(get_rest_api api_id, map_result RawReply answer)]
        /\ result (get_api aws self api_id w) = answer).
Proof.
  split.
  - intros w w' answer H.
    unfold_more. rewrite H.
    destruct answer as [e | a]; [destruct e |]; simpl; split; reflexivity.
  - intros api_id w w' answer H.
    unfold_more. rewrite H.
    destruct answer as [e | a]; [destruct e |]; simpl; split; reflexivity.
Qed.

End Operations.

Section Construction.

Context {W : Type} (aws : services W).

(** X14.  When the constructor returns, the object keeps the profile
    and the region it was given and the session [boto3.Session] answered;
    the constructor built one session, then the apigateway client, then
    the lambda client, and made no call to AWS. *)
Theorem init_returns :
  forall (profile region : option string) (w : W)
         (self : APIGatewayLambdaIntegration),
    result (__init__ aws profile region w) = inr self ->
    profile_name self = profile
    /\ region_name self = region
    /\ (exists args,
          sessions (emitted (__init__ aws profile region w))
          = [(args, inr (session self))])
    /\ clients_created (emitted (__init__ aws profile region w))
       = [("apigateway", inr tt); ("lambda", inr tt)]
    /\ calls (emitted (__init__ aws profile region w)) = [].
Proof.
  intros profile region w self.
  unfold_more.
  destruct (opt_eqb profile "latest"); simpl;
    repeat (step_run; try (intros; discriminate));
    intros H; injection H as <-; simpl;
    repeat match goal with u : unit |- _ => destruct u end;
    (split; [reflexivity |]); (split; [reflexivity |]);
    (split; [eexists; reflexivity |]); split; reflexivity.
Qed.

(** X15.  When [boto3.Session] raises in the constructor, the
    constructor raises the same exception, creates no client, and logs
    nothing at level ERROR: [_create_session] has no handler. *)
Theorem init_session_fails :
  forall (profile region : option string) (w : W)
         (args : SessionArgs) (e : exn),
    sessions (emitted (__init__ aws profile region w)) = [(args, inl e)] ->
    result (__init__ aws profile region w) = inl e
    /\ clients_created (emitted (__init__ aws profile region w)) = []
    /\ errors_logged (emitted (__init__ aws profile region w)) = [].
Proof.
  intros profile region w args e.
  unfold_more.
  destruct (opt_eqb profile "latest"); simpl;
    repeat (step_run; try (intros; discriminate));
    intros H; injection H as <- <-; repeat split; reflexivity.
Qed.

(** X16.  When [boto3.Session] raises, [get_session] raises the same
    exception, makes no call to AWS, and logs one line at level ERROR:
    that the profile was not found, naming the profile asked for, for a
    ProfileNotFound, and the text of the exception for any other. *)
Theorem get_session_fails :
  forall (profile region : option string) (w : W)
         (args : SessionArgs) (e : exn),
    sessions (emitted (get_session aws profile region w)) = [(args, inl e)] ->
    result (get_session aws profile region w) = inl e
    /\ calls (emitted (get_session aws profile region w)) = []
    /\ errors_logged (emitted (get_session aws profile region w))
       = [ if is_ProfileNotFound e
           then "AWS profile not found: " ++ fstr_opt profile
           else "Error creating AWS session: " ++ exn_str e ].
Proof.
  intros profile region w args e.
  unfold_program.
  destruct (opt_eqb profile "latest"); simpl;
    [| destruct (truthy profile); simpl];
    repeat (step_run; try (intros; discriminate));
    intros H; injection H as <- <-; repeat split; reflexivity.
Qed.

(** The profile a resolver asks [boto3.Session] for. *)
Definition profile_asked (t : trace) : list (option string) :=
  map (fun ar => requested_profile (fst ar)) (sessions t).

Definition region_asked (t : trace) : list (option string) :=
  map (fun ar => requested_region (fst ar)) (sessions t).

(** X17.  [ProfileManager.get_session] and [_create_session] ask
    [boto3.Session] for the same region, and for the same profile unless
    the profile is the empty string: for it [get_session] asks for no
    profile and [_create_session] for the profile named by the empty
    string. *)
Theorem resolvers_agree :
  forall (profile region : option string) (w : W),
    region_asked (emitted (get_session aws profile region w)) = [region]
    /\ region_asked (emitted (_create_session aws profile region w)) = [region]
    /\ (profile <> Some "" ->
        profile_asked (emitted (get_session aws profile region w))
        = profile_asked (emitted (_create_session aws profile region w)))
    /\ (profile = Some "" ->
        profile_asked (emitted (get_session aws profile region w)) = [None]
        /\ profile_asked (emitted (_create_session aws profile region w))
           = [Some ""]).
Proof.
  intros profile region w.
  unfold profile_asked, region_asked. unfold_program.
  destruct profile as [name |]; simpl.
  - destruct (String.eqb_spec name "latest") as [-> | Hl]; simpl.
    + destruct (boto3_Session aws _ w) as [w' [e | s]];
        [destruct e |]; simpl;
        (repeat split; try reflexivity; intros; congruence).
    + destruct (String.eqb_spec name "") as [-> | He]; simpl;
        destruct (boto3_Session aws _ w) as [w' [e | s]];
        try destruct e; simpl;
        try destruct (boto3_Session aws _ w) as [w'' [e' | s']];
        try destruct e'; simpl;
        (repeat split; try reflexivity; intros; congruence).
  - destruct (boto3_Session aws {| kw_profile_name := Omitted;
                                   kw_region_name := Passed region |} w)
      as [w' [e | s]]; [destruct e |]; simpl;
      destruct (boto3_Session aws {| kw_profile_name := Passed None;
                                     kw_region_name := Passed region |} w)
        as [w'' [e' | s']]; try destruct e'; simpl;
      (repeat split; try reflexivity; intros; congruence).
Qed.

End Construction.

(** * The rest of the profile manager and the command line

    [ProfileManager.list_profiles] and [ProfileManager.get_profile_info]
    read the profiles of a session and call STS; the commands of
    [cli/main.py] print with [click.echo] and leave through [sys.exit].
    The events and the monad of the core are extended for them. *)

(** [identity['Account']], [identity['UserId']], [identity['Arn']] of
    [get_caller_identity]. *)
Record Identity : Type := {
  Account : string;
  UserId : string;
  Arn : string
}.

(** What the profile manager asks of the world beyond [services]. *)
Record identity_services (W : Type) : Type := {
  session_available_profiles : Session -> W -> W * (exn + list string);
  sts_get_caller_identity : W -> W * (exn + Identity)
}.
Arguments session_available_profiles {W} _ _ _.
Arguments sts_get_caller_identity {W} _ _.

(** The events of a run of the profile manager or of a command: those of
    the core, the two operations above, and the lines [click.echo]
    prints, to the error stream when [err] is set. *)
Inductive cli_event : Type :=
| Core (e : event)
| AvailableProfiles (s : Session) (result : exn + list string)
| CallerIdentity (result : exn + Identity)
| Echo (err : bool) (message : string).

(** A run is cut short by an exception or by [sys.exit];
    [SystemExit] is no [Exception], so [except Exception] lets it pass. *)
Inductive interrupt : Type :=
| Raised (e : exn)
| SystemExit (code : Z).

Record xoutcome (W A : Type) : Type := XOutcome {
  xfinal : W;
  xemitted : list cli_event;
  xresult : interrupt + A
}.
Arguments XOutcome {W A} _ _ _.
Arguments xfinal {W A} _.
Arguments xemitted {W A} _.
Arguments xresult {W A} _.

Definition X (W A : Type) : Type := W -> xoutcome W A.

Definition xret {W A : Type} (a : A) : X W A :=
  fun w => XOutcome w [] (inr a).

Definition xraise {W A : Type} (e : exn) : X W A :=
  fun w => XOutcome w [] (inl (Raised e)).

Definition xbind {W A B : Type} (m : X W A) (k : A -> X W B) : X W B :=
  fun w =>
    match m w with
    | XOutcome w1 t1 (inl i) => XOutcome w1 t1 (inl i)
    | XOutcome w1 t1 (inr a) =>
        match k a w1 with
        | XOutcome w2 t2 r => XOutcome w2 (t1 ++ t2)%list r
        end
    end.

Notation "x <-- m ;; k" := (xbind m (fun x => k))
  (at level 61, m at next level, right associativity).
Notation "m ;;; k" := (xbind m (fun _ => k))
  (at level 61, right associativity).

(** A computation of the core, run inside the extended monad. *)
Definition lift {W A : Type} (m : M W A) : X W A :=
  fun w =>
    match m w with
    | Outcome w1 t1 (inl e) => XOutcome w1 (map Core t1) (inl (Raised e))
    | Outcome w1 t1 (inr a) => XOutcome w1 (map Core t1) (inr a)
    end.

(** [try: body except Exception as e: handler e]. *)
Definition except_Exception {W A : Type} (body : X W A)
    (handler : exn -> X W A) : X W A :=
  fun w =>
    match body w with
    | XOutcome w1 t1 (inl (Raised e)) =>
        match handler e w1 with
        | XOutcome w2 t2 r => XOutcome w2 (t1 ++ t2)%list r
        end
    | XOutcome w1 t1 (inl (SystemExit code)) =>
        XOutcome w1 t1 (inl (SystemExit code))
    | XOutcome w1 t1 (inr a) => XOutcome w1 t1 (inr a)
    end.

(** [click.echo(message)] and [click.echo(message, err=True)]. *)
Definition click_echo {W : Type} (message : string) : X W unit :=
  fun w => XOutcome w [Echo false message] (inr tt).

Definition click_echo_err {W : Type} (message : string) : X W unit :=
  fun w => XOutcome w [Echo true message] (inr tt).

(** [sys.exit(code)]. *)
Definition sys_exit {W A : Type} (code : Z) : X W A :=
  fun w => XOutcome w [] (inl (SystemExit code)).

(** [d[k]] on a dictionary: a missing key raises [KeyError], whose text
    is the key in quotes. *)
Definition subscript {W A : Type} (d : list (string * A)) (k : string)
    : X W A :=
  match find (fun kv => String.eqb (fst kv) k) d with
  | Some kv => xret (snd kv)
  | None => xraise (OtherError "KeyError" ("'" ++ k ++ "'"))
  end.

(** The lines printed, in order: the standard output and the error
    stream. *)
Fixpoint stdout (t : list cli_event) : list string :=
  match t with
  | [] => []
  | Echo false message :: t' => message :: stdout t'
  | _ :: t' => stdout t'
  end.

Fixpoint stderr (t : list cli_event) : list string :=
  match t with
  | [] => []
  | Echo true message :: t' => message :: stderr t'
  | _ :: t' => stderr t'
  end.

(** The events of the core among the events of a run. *)
Fixpoint core (t : list cli_event) : trace :=
  match t with
  | [] => []
  | Core e :: t' => e :: core t'
  | _ :: t' => core t'
  end.

(** The answers of [get_caller_identity] in a run. *)
Fixpoint identity_calls (t : list cli_event) : list (exn + Identity) :=
  match t with
  | [] => []
  | CallerIdentity r :: t' => r :: identity_calls t'
  | _ :: t' => identity_calls t'
  end.

(** The exit status of the process: 0 when the command returns, the
    code of [sys.exit], 1 when an exception escapes. *)
Definition exit_status {W A : Type} (o : xoutcome W A) : Z :=
  match xresult o with
  | inr _ => 0
  | inl (SystemExit code) => code
  | inl (Raised _) => 1
  end.

(** A dictionary whose values may be [None]. *)
Definition info := list (string * option string).

Section ProfileManager.

Context {W : Type} (aws : services W) (ids : identity_services W).

Definition session_available_profiles_ (s : Session) : X W (list string) :=
  fun w =>
    let (w', r) := session_available_profiles ids s w in
    XOutcome w' [AvailableProfiles s r]
      match r with inl e => inl (Raised e) | inr a => inr a end.

Definition sts_client_get_caller_identity : X W Identity :=
  fun w =>
    let (w', r) := sts_get_caller_identity ids w in
    XOutcome w' [CallerIdentity r]
      match r with inl e => inl (Raised e) | inr a => inr a end.

(** [ProfileManager.list_profiles]. *)
Definition list_profiles : X W (list string) :=
  except_Exception
    (session <-- lift (Session_ aws {| kw_profile_name := Omitted;
                                       kw_region_name := Omitted |}) ;;
     profiles <-- session_available_profiles_ session ;;
     lift (logger_info ("Found " ++ str_int (Z.of_nat (length profiles))
                          ++ " AWS profiles")) ;;;
     xret profiles)
    (fun e =>
       lift (logger_error ("Error listing AWS profiles: " ++ exn_str e)) ;;;
       xraise e).

(** [ProfileManager.get_profile_info]; [get_session] is called without a
    region. *)
Definition get_profile_info (profile_name : option string) : X W info :=
  except_Exception
    (session <-- lift (get_session aws profile_name None) ;;
     lift (client_ aws session "sts") ;;;
     identity <-- sts_client_get_caller_identity ;;
     xret [ ("profile", Some (or_else profile_name "default"));
            ("account_id", Some (Account identity));
            ("user_id", Some (UserId identity));
            ("arn", Some (Arn identity));
            ("region", session_region_name session) ])
    (fun e =>
       lift (logger_error ("Error getting profile info: " ++ exn_str e)) ;;;
       xraise e).

End ProfileManager.

(** ** cli/main.py

    [json.dumps(..., indent=2)] is taken as given, one function for each
    type of value the commands print. *)
Module cli.

Section Commands.

Context {W : Type} (aws : services W) (ids : identity_services W).
Variable json_dumps : dict -> string.
Variable json_dumps_profiles : list string -> string.
Variable json_dumps_info : info -> string.

(** The [except Exception] clause the commands share, up to the text
    logged. *)
Definition fail {A : Type} (what : string) (e : exn) : X W A :=
  lift (logger_error (what ++ exn_str e)) ;;;
  click_echo_err ("Error: " ++ exn_str e) ;;;
  sys_exit 1.

(** [create-api]. *)
Definition create_api (api_name lambda_name description : string)
    (profile region : option string) (output : string) : X W unit :=
  except_Exception
    (integration <-- lift (__init__ aws profile region) ;;
     result <-- lift (create_api aws integration api_name lambda_name
                        description) ;;
     if String.eqb output "json" then
       click_echo (json_dumps result)
     else
       click_echo "API Gateway created successfully!" ;;;
       api_id <-- subscript result "api_id" ;;
       click_echo ("API ID: " ++ api_id) ;;;
       api_name_ <-- subscript result "api_name" ;;
       click_echo ("API Name: " ++ api_name_) ;;;
       lambda_name_ <-- subscript result "lambda_name" ;;
       click_echo ("Lambda Function: " ++ lambda_name_) ;;;
       lambda_arn <-- subscript result "lambda_arn" ;;
       click_echo ("Lambda ARN: " ++ lambda_arn) ;;;
       invoke_url <-- subscript result "invoke_url" ;;
       click_echo ("Invoke URL: " ++ invoke_url) ;;;
       stage <-- subscript result "stage" ;;
       click_echo ("Stage: " ++ stage))
    (fail "Error creating API Gateway: ").

(** [delete-api]. *)
Definition delete_api (api_id : string) (profile region : option string)
    (output : string) : X W unit :=
  except_Exception
    (integration <-- lift (__init__ aws profile region) ;;
     result <-- lift (delete_api aws integration api_id) ;;
     if String.eqb output "json" then
       click_echo (json_dumps result)
     else
       click_echo ("API Gateway " ++ api_id ++ " deleted successfully!"))
    (fail "Error deleting API Gateway: ").

(** The [for] loop of [list-profiles]. *)
Fixpoint echo_profiles (profiles : list string) : X W unit :=
  match profiles with
  | [] => xret tt
  | profile :: profiles' =>
      click_echo ("  " ++ profile) ;;; echo_profiles profiles'
  end.

(** [list-profiles]. *)
Definition list_profiles (output : string) : X W unit :=
  except_Exception
    (profiles <-- list_profiles aws ids ;;
     if String.eqb output "json" then
       click_echo (json_dumps_profiles profiles)
     else
       match profiles with
       | [] => click_echo "No AWS profiles found."
       | _ :: _ =>
           click_echo "AWS Profiles:" ;;;
           echo_profiles profiles
       end)
    (fail "Error listing AWS profiles: ").

(** [get-profile-info]. *)
Definition get_profile_info (profile : option string) (output : string)
    : X W unit :=
  except_Exception
    (info_ <-- get_profile_info aws ids profile ;;
     if String.eqb output "json" then
       click_echo (json_dumps_info info_)
     else
       click_echo "Profile Information:" ;;;
       profile_ <-- subscript info_ "profile" ;;
       click_echo ("  Profile: " ++ fstr_opt profile_) ;;;
       account_id <-- subscript info_ "account_id" ;;
       click_echo ("  Account ID: " ++ fstr_opt account_id) ;;;
       user_id <-- subscript info_ "user_id" ;;
       click_echo ("  User ID: " ++ fstr_opt user_id) ;;;
       arn <-- subscript info_ "arn" ;;
       click_echo ("  ARN: " ++ fstr_opt arn) ;;;
       region <-- subscript info_ "region" ;;
       click_echo ("  Region: " ++ fstr_opt region))
    (fail "Error getting profile info: ").

End Commands.

End cli.

(** ** Projections of traces and concatenation *)

Lemma core_app :
  forall t u, core (t ++ u)%list = (core t ++ core u)%list.
Proof.
  induction t as [| [] t IH]; intros u; simpl; rewrite ?IH; reflexivity.
Qed.

Lemma core_lifted : forall t, core (map Core t) = t.
Proof.
  induction t as [| e t IH]; simpl; rewrite ?IH; reflexivity.
Qed.

Lemma stdout_app :
  forall t u, stdout (t ++ u)%list = (stdout t ++ stdout u)%list.
Proof.
  induction t as [| [| | | []] t IH]; intros u; simpl; rewrite ?IH; reflexivity.
Qed.

Lemma stdout_lifted : forall t, stdout (map Core t) = [].
Proof.
  induction t as [| e t IH]; simpl; rewrite ?IH; reflexivity.
Qed.

Lemma stderr_app :
  forall t u, stderr (t ++ u)%list = (stderr t ++ stderr u)%list.
Proof.
  induction t as [| [| | | []] t IH]; intros u; simpl; rewrite ?IH; reflexivity.
Qed.

Lemma stderr_lifted : forall t, stderr (map Core t) = [].
Proof.
  induction t as [| e t IH]; simpl; rewrite ?IH; reflexivity.
Qed.

Lemma identity_calls_app :
  forall t u,
    identity_calls (t ++ u)%list = (identity_calls t ++ identity_calls u)%list.
Proof.
  induction t as [| [] t IH]; intros u; simpl; rewrite ?IH; reflexivity.
Qed.

Lemma identity_calls_lifted : forall t, identity_calls (map Core t) = [].
Proof.
  induction t as [| e t IH]; simpl; rewrite ?IH; reflexivity.
Qed.

Lemma sessions_app :
  forall t u, sessions (t ++ u)%list = (sessions t ++ sessions u)%list.
Proof.
  induction t as [| [] t IH]; intros u; simpl; rewrite ?IH; reflexivity.
Qed.

Lemma calls_app :
  forall t u, calls (t ++ u)%list = (calls t ++ calls u)%list.
Proof.
  induction t as [| [] t IH]; intros u; simpl; rewrite ?IH; reflexivity.
Qed.

Lemma errors_logged_app :
  forall t u,
    errors_logged (t ++ u)%list = (errors_logged t ++ errors_logged u)%list.
Proof.
  induction t as [| [[]| | | |] t IH]; intros u; simpl; rewrite ?IH;
    reflexivity.
Qed.

Lemma clients_created_app :
  forall t u,
    clients_created (t ++ u)%list
    = (clients_created t ++ clients_created u)%list.
Proof.
  induction t as [| [] t IH]; intros u; simpl; rewrite ?IH; reflexivity.
Qed.

(** Pushing the projections through the events of a run. *)
Ltac project :=
  repeat (rewrite ?core_app, ?core_lifted, ?stdout_app, ?stdout_lifted,
            ?stderr_app, ?stderr_lifted, ?identity_calls_app,
            ?identity_calls_lifted, ?sessions_app, ?calls_app,
            ?errors_logged_app, ?clients_created_app, ?app_nil_r;
          simpl).

Ltac unfold_x :=
  unfold cli.create_api, cli.delete_api, cli.list_profiles,
    cli.get_profile_info, cli.fail, list_profiles, get_profile_info,
    session_available_profiles_, sts_client_get_caller_identity;
  unfold except_Exception, xbind, lift, xret, xraise, click_echo,
    click_echo_err, sys_exit, exit_status.

(** Every run of [get_session]: one constructor call, no call to AWS, and
    one line at level ERROR exactly when the constructor raises. *)
Lemma get_session_run :
  forall (W : Type) (aws : services W) (profile region : option string) (w : W),
    exists (args : SessionArgs) (answer : exn + Session),
      sessions (emitted (get_session aws profile region w)) = [(args, answer)]
      /\ result (get_session aws profile region w) = answer
      /\ kw_region_name args = Passed region
      /\ calls (emitted (get_session aws profile region w)) = []
      /\ clients_created (emitted (get_session aws profile region w)) = []
      /\ errors_logged (emitted (get_session aws profile region w))
         = match answer with
           | inl e =>
               [ if is_ProfileNotFound e
                 then "AWS profile not found: " ++ fstr_opt profile
                 else "Error creating AWS session: " ++ exn_str e ]
           | inr _ => []
           end.
Proof.
  intros W aws profile region w.
  unfold_program.
  destruct (opt_eqb profile "latest"); simpl;
    [| destruct (truthy profile); simpl];
    repeat step_run; do 2 eexists; repeat split; reflexivity.
Qed.

Section ProfileManagerProperties.

Context {W : Type} (aws : services W) (ids : identity_services W).

(** Helper: the events of a returning run of [list_profiles]. *)
Lemma list_profiles_shape :
  forall (w : W) (profiles : list string),
    xresult (list_profiles aws ids w) = inr profiles ->
    exists s : Session,
      xemitted (list_profiles aws ids w)
      = [ Core (NewSession {| kw_profile_name := Omitted;
                             kw_region_name := Omitted |} (inr s));
          AvailableProfiles s (inr profiles);
          Core (Log INFO ("Found " ++ str_int (Z.of_nat (length profiles))
                            ++ " AWS profiles")) ].
Proof.
  intros w profiles.
  unfold_x. unfold Session_, logger_info.
  destruct (boto3_Session aws _ w) as [w1 [e | s]]; simpl;
    [intros; discriminate |].
  destruct (session_available_profiles ids s w1) as [w2 [e | ps]]; simpl;
    [intros; discriminate |].
  intros H. injection H as <-. exists s. reflexivity.
Qed.

(** X18.  When [list_profiles] returns, it has built one session with
    neither a profile nor a region, read its available profiles, logged
    their number, and it returns them as they were read. *)
Theorem list_profiles_returns :
  forall (w : W) (profiles : list string),
    xresult (list_profiles aws ids w) = inr profiles ->
    exists s : Session,
      xemitted (list_profiles aws ids w)
      = [ Core (NewSession {| kw_profile_name := Omitted;
                             kw_region_name := Omitted |} (inr s));
          AvailableProfiles s (inr profiles);
          Core (Log INFO ("Found " ++ str_int (Z.of_nat (length profiles))
                            ++ " AWS profiles")) ].
Proof.
  intros w profiles H. exact (list_profiles_shape w profiles H).
Qed.

(** X19.  When [list_profiles] does not return, it raises the
    exception [boto3.Session] or the reading of the profiles raised, and
    has logged it in one line at level ERROR. *)
Theorem list_profiles_raises :
  forall (w : W) (i : interrupt),
    xresult (list_profiles aws ids w) = inl i ->
    exists e : exn,
      i = Raised e
      /\ errors_logged (core (xemitted (list_profiles aws ids w)))
         = ["Error listing AWS profiles: " ++ exn_str e]
      /\ (In (NewSession {| kw_profile_name := Omitted;
                            kw_region_name := Omitted |} (inl e))
             (core (xemitted (list_profiles aws ids w)))
          \/ exists s, In (AvailableProfiles s (inl e))
                          (xemitted (list_profiles aws ids w))).
Proof.
  intros w i.
  unfold_x. unfold Session_, logger_info, logger_error.
  destruct (boto3_Session aws _ w) as [w1 [e | s]]; simpl.
  - intros H. injection H as <-. exists e.
    repeat split; try reflexivity. left. left. reflexivity.
  - destruct (session_available_profiles ids s w1) as [w2 [e | ps]]; simpl;
      [| intros; discriminate].
    intros H. injection H as <-. exists e.
    repeat split; try reflexivity. right. exists s. right. left. reflexivity.
Qed.

(** Helper: what a returning run of [get_profile_info] did. *)
Lemma get_profile_info_success :
  forall (profile : option string) (w : W) (i : info),
    xresult (get_profile_info aws ids profile w) = inr i ->
    exists (args : SessionArgs) (s : Session) (identity : Identity),
      kw_region_name args = Passed None
      /\ sessions (core (xemitted (get_profile_info aws ids profile w)))
         = [(args, inr s)]
      /\ clients_created (core (xemitted (get_profile_info aws ids profile w)))
         = [("sts", inr tt)]
      /\ identity_calls (xemitted (get_profile_info aws ids profile w))
         = [inr identity]
      /\ calls (core (xemitted (get_profile_info aws ids profile w))) = []
      /\ i = [ ("profile", Some (or_else profile "default"));
               ("account_id", Some (Account identity));
               ("user_id", Some (UserId identity));
               ("arn", Some (Arn identity));
               ("region", session_region_name s) ].
Proof.
  intros profile w i.
  destruct (get_session_run W aws profile None w)
    as (args & answer & Hs & Hr & Hreg & Hc & Hcl & _).
  unfold_x. unfold client_, logger_error.
  destruct (get_session aws profile None w) as [w1 t1 r1]; simpl in *.
  subst r1. destruct answer as [e | s]; simpl; [intros; discriminate |].
  destruct (session_client aws s "sts" w1) as [w2 [e | []]]; simpl;
    [intros; discriminate |].
  destruct (sts_get_caller_identity ids w2) as [w3 [e | identity]]; simpl;
    [intros; discriminate |].
  intros H. injection H as <-.
  exists args, s, identity.
  project.
  rewrite Hs, Hc, Hcl.
  repeat split; try reflexivity. exact Hreg.
Qed.

(** X20.  When [get_profile_info] returns, it has resolved one
    session, with no region of its own, and made one call of
    [get_caller_identity] and no call of the gateway or the registry; the
    dictionary has the five keys of the source, [profile] is default for
    no profile or the empty string and the name given otherwise, latest
    included, the account, user and ARN are those of the identity, and
    [region] is the region of the session. *)
Theorem get_profile_info_returns :
  forall (profile : option string) (w : W) (i : info),
    xresult (get_profile_info aws ids profile w) = inr i ->
    exists (args : SessionArgs) (s : Session) (identity : Identity),
      sessions (core (xemitted (get_profile_info aws ids profile w)))
      = [(args, inr s)]
      /\ kw_region_name args = Passed None
      /\ identity_calls (xemitted (get_profile_info aws ids profile w))
         = [inr identity]
      /\ calls (core (xemitted (get_profile_info aws ids profile w))) = []
      /\ map fst i = ["profile"; "account_id"; "user_id"; "arn"; "region"]
      /\ (profile = None \/ profile = Some "" ->
          In ("profile", Some "default") i)
      /\ (forall name, profile = Some name -> name <> "" ->
          In ("profile", Some name) i)
      /\ In ("account_id", Some (Account identity)) i
      /\ In ("user_id", Some (UserId identity)) i
      /\ In ("arn", Some (Arn identity)) i
      /\ In ("region", session_region_name s) i.
Proof.
  intros profile w i H.
  destruct (get_profile_info_success profile w i H)
    as (args & s & identity & Hreg & Hs & _ & Hid & Hc & ->).
  exists args, s, identity.
  split; [exact Hs |]. split; [exact Hreg |]. split; [exact Hid |].
  split; [exact Hc |]. split; [reflexivity |].
  split; [intros [-> | ->]; left; reflexivity |].
  split.
  { intros name -> Hne. left. simpl.
    destruct (String.eqb_spec name ""); [contradiction | reflexivity]. }
  simpl. tauto.
Qed.

(** X21.  When the session cannot be built, [get_profile_info]
    raises the exception of [boto3.Session], creates no client, does not
    call STS, and the failure is logged twice at level ERROR, by
    [get_session] and by [get_profile_info]. *)
Theorem get_profile_info_session_fails :
  forall (profile : option string) (w : W) (args : SessionArgs) (e : exn),
    sessions (core (xemitted (get_profile_info aws ids profile w)))
      = [(args, inl e)] ->
    xresult (get_profile_info aws ids profile w) = inl (Raised e)
    /\ identity_calls (xemitted (get_profile_info aws ids profile w)) = []
    /\ clients_created (core (xemitted (get_profile_info aws ids profile w)))
       = []
    /\ errors_logged (core (xemitted (get_profile_info aws ids profile w)))
       = [ if is_ProfileNotFound e
           then "AWS profile not found: " ++ fstr_opt profile
           else "Error creating AWS session: " ++ exn_str e;
           "Error getting profile info: " ++ exn_str e ].
Proof.
  intros profile w args e.
  destruct (get_session_run W aws profile None w)
    as (args' & answer & Hs & Hr & Hreg & Hc & Hcl & Hlog).
  unfold_x. unfold client_, logger_error.
  destruct (get_session aws profile None w) as [w1 t1 r1]; simpl in *.
  subst r1. destruct answer as [e' | s]; simpl.
  - project. rewrite Hs, Hcl, Hlog. simpl.
    intros H. injection H as <- <-. repeat split; reflexivity.
  - destruct (session_client aws s "sts" w1) as [w2 [e' | []]]; simpl;
      [| destruct (sts_get_caller_identity ids w2) as [w3 [e' | identity]];
         simpl];
      project; rewrite Hs; simpl; intros; discriminate.
Qed.

End ProfileManagerProperties.

(** ** The commands *)



Lemma stdout_echoes :
  forall lines : list string,
    stdout (map (fun line => Echo false line) lines) = lines.
Proof.
  induction lines as [| line lines IH]; simpl; rewrite ?IH; reflexivity.
Qed.

Section CommandProperties.

Context {W : Type} (aws : services W) (ids : identity_services W).
Variable json_dumps : dict -> string.
Variable json_dumps_profiles : list string -> string.
Variable json_dumps_info : info -> string.









End CommandProperties.

(** ** The further properties on the stub worlds *)

(** A stub whose [boto3.Session] answers as given. *)
Definition with_session (c : canned) (answer : SessionArgs -> exn + Session)
    : canned := {|
  canned_now := canned_now c;
  canned_session := answer;
  canned_function := canned_function c;
  canned_permission := canned_permission c;
  canned_rest_api := canned_rest_api c;
  canned_resources := canned_resources c;
  canned_resource := canned_resource c;
  canned_method := canned_method c;
  canned_integration := canned_integration c;
  canned_method_response := canned_method_response c;
  canned_integration_response := canned_integration_response c;
  canned_deployment := canned_deployment c;
  canned_delete := canned_delete c;
  canned_test_invoke := canned_test_invoke c
|}.

(** A stub whose [delete_rest_api] answers as given. *)
Definition with_delete (c : canned) (answer : exn + json) : canned := {|
  canned_now := canned_now c;
  canned_session := canned_session c;
  canned_function := canned_function c;
  canned_permission := canned_permission c;
  canned_rest_api := canned_rest_api c;
  canned_resources := canned_resources c;
  canned_resource := canned_resource c;
  canned_method := canned_method c;
  canned_integration := canned_integration c;
  canned_method_response := canned_method_response c;
  canned_integration_response := canned_integration_response c;
  canned_deployment := canned_deployment c;
  canned_delete := answer;
  canned_test_invoke := canned_test_invoke c
|}.

Definition stub_ids (profiles : exn + list string) (identity : exn + Identity)
    : identity_services unit := {|
  session_available_profiles := fun _ w => (w, profiles);
  sts_get_caller_identity := fun w => (w, identity)
|}.

Definition demo_world : canned := demo (1700000000 # 1)%Q.

Definition demo_identity : Identity := {|
  Account := "123456789012";
  UserId := "AIDAEXAMPLE";
  Arn := "arn:aws:iam::123456789012:user/test-user"
|}.

Definition demo_ids : identity_services unit :=
  stub_ids (inr ["default"; "dev"]) (inr demo_identity).

Definition no_such_profile : exn :=
  ProfileNotFound "The config profile (non-existent) could not be found".

Definition access_denied : exn :=
  ClientError "AccessDeniedException" "An error occurred (AccessDeniedException)".

(** No profile is configured. *)
Definition unconfigured : canned :=
  with_session demo_world (fun _ => inl no_such_profile).

(** The registry refuses to answer. *)
Definition registry_denied : canned :=
  scenario (1700000000 # 1)%Q (inl access_denied) (inr demo_resources)
    (inr {| response_id := "node123" |}).

(** The registry answers with an ARN that is no ARN. *)
Definition short_arn : canned :=
  scenario (1700000000 # 1)%Q
    (inr {| Configuration_FunctionArn := "demo-fn" |}) (inr demo_resources)
    (inr {| response_id := "node123" |}).

(** The gateway cannot list the resources. *)
Definition listing_denied : canned :=
  scenario (1700000000 # 1)%Q (inr demo_function) (inl access_denied)
    (inr {| response_id := "node123" |}).


Lemma get_lambda_function_answers_witness :
  result (_get_lambda_function (stub unknown_function) demo_self
            "test-lambda" tt) = inr None
  /\ result (_get_lambda_function (stub registry_denied) demo_self
               "test-lambda" tt) = inl access_denied.
Proof.
  split.
  - exact (proj2 (get_lambda_function_answers (stub unknown_function)
                    demo_self "test-lambda" tt tt _ eq_refl)).
  - exact (proj2 (get_lambda_function_answers (stub registry_denied)
                    demo_self "test-lambda" tt tt _ eq_refl)).
Defined.

Lemma create_api_registry_error_witness :
  result (create_api (stub registry_denied) demo_self
            "demo-api" "demo-fn" "desc" tt) = inl access_denied
  /\ calls (emitted (create_api (stub registry_denied) demo_self
                       "demo-api" "demo-fn" "desc" tt))
     = [(get_function "demo-fn", inl access_denied)].
Proof.
  destruct (create_api_registry_error (stub registry_denied) demo_self
              "demo-api" "demo-fn" "desc" tt tt access_denied
              eq_refl eq_refl) as (Hr & Hc & _).
  split; [exact Hr | exact Hc].
Defined.

Lemma create_api_short_arn_witness :
  result (create_api (stub short_arn) demo_self "demo-api" "demo-fn" "desc" tt)
  = inl (IndexError "list index out of range").
Proof.
  exact (proj1 (create_api_short_arn (stub short_arn) demo_self
                  "demo-api" "demo-fn" "desc" "root123" tt tt tt tt tt tt
                  {| Configuration_FunctionArn := "demo-fn" |}
                  {| response_id := "api123" |}
                  {| response_id := "node123" |} demo_resources (JDict [])
                  eq_refl eq_refl eq_refl eq_refl eq_refl eq_refl
                  (le_S _ _ (le_S _ _ (le_S _ _ (le_n 2)))))).
Defined.

Lemma create_api_errors_witness :
  IndexError "list index out of range" = FunctionNotFound "demo-fn"
  \/ IndexError "list index out of range"
     = IndexError "list index out of range"
  \/ exists c,
       failures
         (calls (emitted (create_api (stub no_root) demo_self
                            "demo-api" "demo-fn" "desc" tt)))
       = [(c, IndexError "list index out of range")].
Proof.
  exact (create_api_errors (stub no_root) demo_self "demo-api" "demo-fn"
           "desc" tt _ eq_refl).
Defined.

Lemma create_api_one_rest_api_witness :
  exists api,
    In (create_rest_api "demo-api" "desc" ["REGIONAL"], inr (IdReply api))
       (calls (emitted (create_api (stub demo_world) demo_self
                          "demo-api" "demo-fn" "desc" tt)))
    /\ "api123" = response_id api.
Proof.
  exact (create_api_one_rest_api (stub demo_world) demo_self
           "demo-api" "demo-fn" "desc" tt
           (create_deployment "api123" "prod")
           (inr (IdReply {| response_id := "deployment123" |})) "api123"
           (or_intror (or_intror (or_intror (or_intror (or_intror
              (or_intror (or_intror (or_intror (or_intror
                 (or_introl eq_refl))))))))))
           eq_refl).
Defined.

Lemma create_api_provisions_witness :
  map (fun cr => step (fst cr))
    (gateway_calls
       (emitted (create_api (stub demo_world) demo_self
                   "demo-api" "demo-fn" "desc" tt)))
  = [Some 2; Some 3; Some 4; Some 5; Some 6; Some 7; Some 7; Some 9].
Proof.
  destruct (create_api_provisions (stub demo_world) demo_self
              "demo-api" "demo-fn" "desc" tt demo_descriptor eq_refl)
    as (fn & api & node & deployment & resources & root_id & a5 & a6 & a7
        & a8 & _ & _ & Hg).
  cbv zeta in Hg. rewrite Hg. reflexivity.
Defined.

Lemma create_api_descriptor_witness :
  map fst demo_descriptor
    = [ "api_id"; "api_name"; "lambda_name"; "lambda_arn"; "invoke_url";
        "deployment_id"; "stage" ]
  /\ dict_get demo_descriptor "api_name" = Some "demo-api"
  /\ dict_get demo_descriptor "lambda_name" = Some "demo-fn".
Proof.
  destruct (create_api_descriptor (stub demo_world) demo_self
              "demo-api" "demo-fn" "desc" tt demo_descriptor eq_refl)
    as (fn & deployment & _ & _ & Hk & Hn & Hl & _).
  split; [exact Hk |]. split; [exact Hn | exact Hl].
Defined.

Lemma test_invoke_api_listing_fails_witness :
  result (test_invoke_api (stub listing_denied) demo_self
            "api123" "/demo-fn" "POST" None tt) = inl access_denied
  /\ errors_logged (emitted (test_invoke_api (stub listing_denied) demo_self
                               "api123" "/demo-fn" "POST" None tt))
     = [ "Error getting resource ID: An error occurred (AccessDeniedException)";
         "Error test invoking API Gateway: An error occurred (AccessDeniedException)" ].
Proof.
  destruct (test_invoke_api_listing_fails (stub listing_denied) demo_self
              "api123" "/demo-fn" "POST" None tt tt access_denied eq_refl)
    as (Hr & _ & Hl).
  split; [exact Hr | exact Hl].
Defined.

Lemma delete_api_answers_witness :
  result (delete_api (stub (with_delete demo_world (inl access_denied)))
            demo_self "api123" tt) = inl access_denied
  /\ calls (emitted (delete_api (stub (with_delete demo_world
                                         (inl access_denied)))
                       demo_self "api123" tt))
     = [(delete_rest_api "api123", inl access_denied)].
Proof.
  destruct (delete_api_answers (stub (with_delete demo_world
                                        (inl access_denied)))
              demo_self "api123" tt tt _ eq_refl) as (Hc & Hr & _).
  split; [exact Hr | exact Hc].
Defined.

Lemma pass_through_answers_witness :
  result (list_apis (stub demo_world) demo_self tt) = inr []
  /\ result (get_api (stub demo_world) demo_self "api123" tt)
     = inr (JDict []).
Proof.
  split.
  - exact (proj2 (proj1 (pass_through_answers (stub demo_world) demo_self)
                    tt tt _ eq_refl)).
  - exact (proj2 (proj2 (pass_through_answers (stub demo_world) demo_self)
                    "api123" tt tt _ eq_refl)).
Defined.

Lemma init_returns_witness :
  profile_name demo_self = Some "test-profile"
  /\ region_name demo_self = Some "us-east-1"
  /\ clients_created
       (emitted (__init__ (stub demo_world) (Some "test-profile")
                   (Some "us-east-1") tt))
     = [("apigateway", inr tt); ("lambda", inr tt)].
Proof.
  destruct (init_returns (stub demo_world) (Some "test-profile")
              (Some "us-east-1") tt demo_self eq_refl)
    as (Hp & Hr & _ & Hc & _).
  split; [exact Hp |]. split; [exact Hr | exact Hc].
Defined.

Lemma init_session_fails_witness :
  result (__init__ (stub unconfigured) (Some "non-existent") None tt)
    = inl no_such_profile
  /\ clients_created
       (emitted (__init__ (stub unconfigured) (Some "non-existent") None tt))
     = [].
Proof.
  destruct (init_session_fails (stub unconfigured) (Some "non-existent") None
              tt _ no_such_profile eq_refl) as (Hr & Hc & _).
  split; [exact Hr | exact Hc].
Defined.

Lemma get_session_fails_witness :
  result (get_session (stub unconfigured) (Some "non-existent") None tt)
    = inl no_such_profile
  /\ errors_logged
       (emitted (get_session (stub unconfigured) (Some "non-existent") None tt))
     = ["AWS profile not found: non-existent"].
Proof.
  destruct (get_session_fails (stub unconfigured) (Some "non-existent") None
              tt _ no_such_profile eq_refl) as (Hr & _ & Hl).
  split; [exact Hr | exact Hl].
Defined.

Lemma list_profiles_returns_witness :
  exists s : Session,
    xemitted (list_profiles (stub demo_world) demo_ids tt)
    = [ Core (NewSession {| kw_profile_name := Omitted;
                           kw_region_name := Omitted |} (inr s));
        AvailableProfiles s (inr ["default"; "dev"]);
        Core (Log INFO "Found 2 AWS profiles") ].
Proof.
  exact (list_profiles_returns (stub demo_world) demo_ids tt
           ["default"; "dev"] eq_refl).
Defined.

Lemma list_profiles_raises_witness :
  exists e : exn,
    Raised no_such_profile = Raised e
    /\ errors_logged
         (core (xemitted (list_profiles (stub unconfigured) demo_ids tt)))
       = ["Error listing AWS profiles: " ++ exn_str e].
Proof.
  destruct (list_profiles_raises (stub unconfigured) demo_ids tt _ eq_refl)
    as (e & He & Hl & _).
  exists e. split; [exact He | exact Hl].
Defined.

Lemma get_profile_info_returns_witness :
  exists i : info,
    xresult (get_profile_info (stub demo_world) demo_ids (Some "latest") tt)
      = inr i
    /\ In ("profile", Some "latest") i
    /\ In ("region", None) i.
Proof.
  eexists. split; [reflexivity |].
  destruct (get_profile_info_returns (stub demo_world) demo_ids (Some "latest")
              tt _ eq_refl)
    as (args & s & identity & Hs & _ & _ & _ & _ & _ & Hname & _ & _ & _
        & Hreg).
  split.
  - apply (Hname "latest" eq_refl). discriminate.
  - injection Hs as _ <-. exact Hreg.
Defined.

Lemma get_profile_info_session_fails_witness :
  xresult (get_profile_info (stub unconfigured) demo_ids
             (Some "non-existent") tt) = inl (Raised no_such_profile)
  /\ errors_logged
       (core (xemitted (get_profile_info (stub unconfigured) demo_ids
                          (Some "non-existent") tt)))
     = [ "AWS profile not found: non-existent";
         "Error getting profile info: The config profile (non-existent) could not be found" ].
Proof.
  destruct (get_profile_info_session_fails (stub unconfigured) demo_ids
              (Some "non-existent") tt _ no_such_profile eq_refl)
    as (Hr & _ & _ & Hl).
  split; [exact Hr | exact Hl].
Defined.






